(** * django-dataforms: the dynamic form and collection engine

    A shallow embedding of [dataforms/forms.py]: key mangling
    ([_field_for_form], [_field_for_db]), the answer binder
    ([BaseDataForm.save], [get_answers]), the binding list ([get_bindings])
    and the sectioned collection ([BaseCollection]).

    Python values are kept as a small tagged union, dictionaries are
    stdpp [gmap]s, the relational store is a record of tables, and code
    that raises is written in a state-and-exception monad so that the
    writes made before an exception stay visible. *)

From Stdlib Require Import ZArith String Ascii.
From stdpp Require Import gmap strings list pretty.


(** ** Python values and exceptions *)

(** The exception classes that the modelled code can let escape. *)
Inductive exn : Type :=
| DoesNotExist
| MultipleObjectsReturned
| KeyError
| IndexError
| TypeError
| ValueError
| AttributeError
| AssertionError
| FieldError
| SectionDoesNotExist.

Inductive result (A : Type) : Type :=
| Ok (a : A)
| Raise (e : exn).
Arguments Ok {A} a.
Arguments Raise {A} e.

(** Scalars as they appear in cleaned form data and in answer contents. *)
Inductive atom : Type :=
| ANone
| ABool (b : bool)
| AStr (s : string)
| AInt (z : Z).

(** A cleaned value is a scalar or a flat list of scalars. *)
Inductive pyval : Type :=
| PAtom (a : atom)
| PList (l : list atom).

#[global] Instance atom_eq_dec : EqDecision atom.
Proof. solve_decision. Defined.

#[global] Instance pyval_eq_dec : EqDecision pyval.
Proof. solve_decision. Defined.

#[global] Instance exn_eq_dec : EqDecision exn.
Proof. solve_decision. Defined.

(** Python truthiness, as tested by [x if x else ''] . *)
Definition truthy (v : pyval) : bool :=
  match v with
  | PAtom ANone => false
  | PAtom (ABool b) => b
  | PAtom (AStr s) => negb (String.eqb s "")
  | PAtom (AInt z) => negb (Z.eqb z 0)
  | PList l => negb (Nat.eqb (List.length l) 0)
  end.

(** The characters of a string, each as a one-character string: what
    iterating over or indexing a Python string yields. *)
Fixpoint chars (s : string) : list atom :=
  match s with
  | EmptyString => []
  | String c s' => AStr (String c EmptyString) :: chars s'
  end.

(** [len(v)]: defined on strings and lists, a [TypeError] elsewhere. *)
Definition py_len (v : pyval) : result nat :=
  match v with
  | PAtom (AStr s) => Ok (String.length s)
  | PList l => Ok (List.length l)
  | PAtom _ => Raise TypeError
  end.

(** [iter(v)]: the elements a [for] loop over [v] visits. *)
Definition py_iter (v : pyval) : result (list atom) :=
  match v with
  | PAtom (AStr s) => Ok (chars s)
  | PList l => Ok l
  | PAtom _ => Raise TypeError
  end.

(** [v[0]] *)
Definition py_first (v : pyval) : result atom :=
  match v with
  | PAtom (AStr s) =>
      match chars s with
      | a :: _ => Ok a
      | [] => Raise IndexError
      end
  | PList (a :: _) => Ok a
  | PList [] => Raise IndexError
  | PAtom _ => Raise TypeError
  end.

(** ** Strings: [in], slicing and [split] *)

(** [sub in s] *)
Fixpoint contains (sub s : string) : bool :=
  String.prefix sub s ||
  match s with
  | EmptyString => false
  | String _ s' => contains sub s'
  end.

(** [s[n:]] *)
Fixpoint drop_chars (n : nat) (s : string) : string :=
  match n, s with
  | O, _ => s
  | S _, EmptyString => EmptyString
  | S n', String _ s' => drop_chars n' s'
  end.

(** The scan of [str.split(sep)] for a non-empty separator: [cur] is the
    piece being read, [skip] counts the characters of a separator that was
    just matched and still have to be stepped over. *)
Fixpoint split_from (sep : string) (skip : nat) (cur s : string) : list string :=
  match s with
  | EmptyString => [cur]
  | String c s' =>
      match skip with
      | S n => split_from sep n cur s'
      | O =>
          if String.prefix sep s
          then cur :: split_from sep (String.length sep - 1) EmptyString s'
          else split_from sep 0 (cur +:+ String c EmptyString) s'
      end
  end.

(** [s.split(sep)]; an empty separator is a [ValueError]. *)
Definition split (s sep : string) : result (list string) :=
  if String.eqb sep "" then Raise ValueError
  else Ok (split_from sep 0 EmptyString s).

(** ** Settings

    [dataforms/settings.py] is not among the sources.  The constants that
    [forms.py] imports from it are the fields of this class, and everything
    below is stated for any value of them. *)
Class Settings : Type := {
  FIELD_DELIMITER : string;
  SINGLE_CHOICE_FIELDS : list string;
  MULTI_CHOICE_FIELDS : list string;
  CHOICE_FIELDS : list string;
  SINGLE_NUMBER_FIELDS : list string;
  MULTI_NUMBER_FIELDS : list string;
  NUMBER_FIELDS : list string;
  HIDDEN_BINDINGS_SLUG : string
}.

(** Sample values for the settings, with the two-hyphen delimiter that the
    docstrings of [_field_for_form] and [_field_for_db] show. *)
Definition hyphen_settings : Settings := {|
  FIELD_DELIMITER := "--";
  SINGLE_CHOICE_FIELDS := ["Select"; "RadioSelect"];
  MULTI_CHOICE_FIELDS := ["SelectMultiple"; "CheckboxSelectMultiple"];
  CHOICE_FIELDS :=
    ["Select"; "RadioSelect"; "SelectMultiple"; "CheckboxSelectMultiple"];
  SINGLE_NUMBER_FIELDS := ["IntegerInput"];
  MULTI_NUMBER_FIELDS := ["MultiIntegerInput"];
  NUMBER_FIELDS := ["IntegerInput"; "MultiIntegerInput"];
  HIDDEN_BINDINGS_SLUG := "js_dataform_bindings"
|}.

(** Modelled from the spec: settings with "a single delimiter character
    reserved for key mangling"; [dataforms/settings.py] is missing, the
    other values are those of the sample above. *)
Definition colon_settings : Settings := {|
  FIELD_DELIMITER := ":";
  SINGLE_CHOICE_FIELDS := ["Select"; "RadioSelect"];
  MULTI_CHOICE_FIELDS := ["SelectMultiple"; "CheckboxSelectMultiple"];
  CHOICE_FIELDS :=
    ["Select"; "RadioSelect"; "SelectMultiple"; "CheckboxSelectMultiple"];
  SINGLE_NUMBER_FIELDS := ["IntegerInput"];
  MULTI_NUMBER_FIELDS := ["MultiIntegerInput"];
  NUMBER_FIELDS := ["IntegerInput"; "MultiIntegerInput"];
  HIDDEN_BINDINGS_SLUG := "js_dataform_bindings"
|}.

(** [x in xs] for a tuple of field-type tags. *)
Definition tag_in (x : string) (xs : list string) : bool :=
  bool_decide (x ∈ xs).

(** ** Key mangling *)

(** What [_field_for_db] returns: the field name, or the pair
    [(form_name, field_name)] when [packed_return] is set. *)
Inductive db_name : Type :=
| FieldName (field : string)
| FormAndField (form field : string).

(** The field name in what [_field_for_db] returns. *)
Definition db_field_name (name : db_name) : string :=
  match name with
  | FieldName field => field
  | FormAndField _ field => field
  end.

#[global] Instance db_name_eq_dec : EqDecision db_name.
Proof. solve_decision. Defined.

#[global] Instance result_eq_dec {A} `{!EqDecision A} : EqDecision (result A).
Proof. solve_decision. Defined.

Section KeyMangling.
Context `{!Settings}.

(** ["%s%s%s" % (form, FIELD_DELIMITER, name)] *)
Definition _field_for_form (name form : string) : string :=
  form +:+ FIELD_DELIMITER +:+ name.

Definition _field_for_db (name : string) (packed_return : bool) : result db_name :=
  match split name FIELD_DELIMITER with
  | Raise e => Raise e
  | Ok names =>
      if packed_return then
        match names with
        | n0 :: n1 :: _ =>
            Ok (FormAndField
                  (drop_chars (if contains "id_" n0 then String.length "id_" else 0) n0)
                  n1)
        | _ => Raise IndexError
        end
      else
        match names with
        | _ :: n1 :: _ => Ok (FieldName n1)
        | _ => Raise IndexError
        end
  end.

End KeyMangling.

(** ** The relational store

    The rows that [forms.py] reads and writes through the ORM.  The model
    classes are declared in [dataforms/models.py], which is not among the
    sources; each record below has the columns that [forms.py] uses.  A row
    refers to another row by holding it, and an [Answer] carries its three
    related sets ([answerchoice_set], [answernumber_set], [answertext_set]),
    which is how the code reaches them. *)

(** Modelled from the spec: the model [Submission] of the missing
    [models.py], "identified by a caller-supplied slug; created lazily on
    first save". *)
Record Submission : Type := {
  Submission_id : nat;
  Submission_slug : string
}.

(** Modelled from the spec: the model [Field] of the missing [models.py],
    a field definition with its slug and its field-type tag. *)
Record Field : Type := {
  Field_slug : string;
  Field_field_type : string
}.

(** Modelled from the spec: the model [DataForm] of the missing
    [models.py], a form definition with its slug. *)
Record DataForm : Type := {
  DataForm_slug : string
}.

(** Modelled from the spec: the model [Choice] of the missing [models.py],
    "value + title". *)
Record Choice : Type := {
  Choice_value : string;
  Choice_title : string
}.

(** Modelled from the spec: the model [FieldChoice] of the missing
    [models.py], the join that associates a choice to a field. *)
Record FieldChoice : Type := {
  FieldChoice_field : Field;
  FieldChoice_choice : Choice
}.

(** Modelled from the spec: the model [Binding] of the missing
    [models.py], a child field with a parent field or a parent choice;
    either reference can be absent in a row. *)
Record Binding : Type := {
  Binding_data_form : DataForm;
  Binding_child : Field;
  Binding_parent_field : option Field;
  Binding_parent_choice : option FieldChoice
}.

(** Modelled from the spec: the model [Section] of the missing
    [models.py], with its slug. *)
Record Section_ : Type := {
  Section_slug : string
}.

(** Modelled from the spec: the model [Answer] of the missing [models.py],
    the "(Submission, Field, Form) triple" with its choice, number and text
    rows. *)
Record Answer : Type := {
  Answer_submission : Submission;
  Answer_field : Field;
  Answer_data_form : DataForm;
  answerchoice_set : list Choice;
  answernumber_set : list atom;
  answertext_set : list string
}.

#[global] Instance Submission_eq_dec : EqDecision Submission.
Proof. solve_decision. Defined.
#[global] Instance Field_eq_dec : EqDecision Field.
Proof. solve_decision. Defined.
#[global] Instance DataForm_eq_dec : EqDecision DataForm.
Proof. solve_decision. Defined.
#[global] Instance Choice_eq_dec : EqDecision Choice.
Proof. solve_decision. Defined.
#[global] Instance Section_eq_dec : EqDecision Section_.
Proof. solve_decision. Defined.
#[global] Instance Answer_eq_dec : EqDecision Answer.
Proof. solve_decision. Defined.

Record Store : Type := {
  Submission_objects : list Submission;
  Field_objects : list Field;
  DataForm_objects : list DataForm;
  Choice_objects : list Choice;
  Binding_objects : list Binding;
  Answer_objects : list Answer
}.

(** Modelled from the spec: one row of what the manager method
    [Answer.objects.get_answer_data(submission)] of the missing [models.py]
    returns, with the four entries that [get_answers] reads. *)
Record answer_row : Type := {
  row_field_slug : string;
  row_dataform_slug : string;
  row_field_type : string;
  row_content : list atom
}.

(** What the modelled code needs of the missing [models.py] beyond the
    tables is kept abstract: the string that a character column holds for
    a Python value written to it, and the custom manager method
    [get_answer_data]. *)
Class Models : Type := {
  char_column : pyval -> string;
  get_answer_data : Store -> option nat -> list answer_row
}.

(** ** State and exceptions *)

(** A computation over the store that returns or raises; the store reached
    is kept in both cases.  A method that changes [self] returns the
    changed object. *)
Definition M (A : Type) : Type := Store -> result A * Store.

Definition ret {A} (a : A) : M A := fun db => (Ok a, db).

Definition raise {A} (e : exn) : M A := fun db => (Raise e, db).

Definition bind {A B} (m : M A) (k : A -> M B) : M B :=
  fun db =>
    match m db with
    | (Ok a, db') => k a db'
    | (Raise e, db') => (Raise e, db')
    end.

Definition lift {A} (r : result A) : M A :=
  fun db => (r, db).

Definition get_store : M Store := fun db => (Ok db, db).

(** The store with its answer table replaced. *)
Definition set_answers (answers : list Answer) (db : Store) : Store :=
  {| Submission_objects := Submission_objects db;
     Field_objects := Field_objects db;
     DataForm_objects := DataForm_objects db;
     Choice_objects := Choice_objects db;
     Binding_objects := Binding_objects db;
     Answer_objects := answers |}.

(** The store with its submission table replaced. *)
Definition set_submissions (subs : list Submission) (db : Store) : Store :=
  {| Submission_objects := subs;
     Field_objects := Field_objects db;
     DataForm_objects := DataForm_objects db;
     Choice_objects := Choice_objects db;
     Binding_objects := Binding_objects db;
     Answer_objects := Answer_objects db |}.

Definition put_answers (answers : list Answer) : M unit :=
  fun db => (Ok tt, set_answers answers db).

Definition put_submissions (subs : list Submission) : M unit :=
  fun db => (Ok tt, set_submissions subs db).

Notation "'do' x <- m ; k" := (bind m (fun x => k))
  (at level 10, x pattern, m at level 100, k at level 200).

(** A [for] loop whose body only acts on the store. *)
Fixpoint for_each {A} (xs : list A) (body : A -> M unit) : M unit :=
  match xs with
  | [] => ret tt
  | x :: xs' => do _ <- body x; for_each xs' body
  end.

(** ** Manager operations *)

(** [Model.objects.get(...)] over the rows that satisfy the lookup. *)
Definition objects_get {A} (matching : list A) : result A :=
  match matching with
  | [] => Raise DoesNotExist
  | [x] => Ok x
  | _ :: _ :: _ => Raise MultipleObjectsReturned
  end.

Definition Field_objects_get (slug : string) : M Field :=
  do db <- get_store;
  lift (objects_get (filter (fun f => Field_slug f = slug) (Field_objects db))).

Definition DataForm_objects_get (slug : string) : M DataForm :=
  do db <- get_store;
  lift (objects_get (filter (fun f => DataForm_slug f = slug) (DataForm_objects db))).


(** A primary key that no row of the table has. *)
Definition fresh_id (subs : list Submission) : nat :=
  S (max_list (Submission_id <$> subs)).

Definition Submission_objects_get_or_create (slug : string) : M (Submission * bool) :=
  do db <- get_store;
  match filter (fun s => Submission_slug s = slug) (Submission_objects db) with
  | [] =>
      let sub := {| Submission_id := fresh_id (Submission_objects db);
                    Submission_slug := slug |} in
      do _ <- put_submissions (Submission_objects db ++ [sub]);
      ret (sub, true)
  | [sub] => ret (sub, false)
  | _ :: _ :: _ => raise MultipleObjectsReturned
  end.

(** The lookup [submission=..., field=..., data_form=...] on an answer row. *)
Definition answer_for (sub : Submission) (field : Field) (form : DataForm)
    (a : Answer) : Prop :=
  Answer_submission a = sub ∧ Answer_field a = field ∧ Answer_data_form a = form.

#[global] Instance answer_for_dec sub field form a :
  Decision (answer_for sub field form a).
Proof. unfold answer_for. apply _. Defined.

(** The rows that are the answer object [a] . *)
Definition same_answer (a : Answer) : Answer -> Prop :=
  answer_for (Answer_submission a) (Answer_field a) (Answer_data_form a).

#[global] Instance same_answer_dec a b : Decision (same_answer a b).
Proof. unfold same_answer. apply _. Defined.

Definition Answer_objects_get_or_create (sub : Submission) (field : Field)
    (form : DataForm) : M (Answer * bool) :=
  do db <- get_store;
  match filter (answer_for sub field form) (Answer_objects db) with
  | [] =>
      let answer := {| Answer_submission := sub;
                       Answer_field := field;
                       Answer_data_form := form;
                       answerchoice_set := [];
                       answernumber_set := [];
                       answertext_set := [] |} in
      do _ <- put_answers (Answer_objects db ++ [answer]);
      ret (answer, true)
  | [answer] => ret (answer, false)
  | _ :: _ :: _ => raise MultipleObjectsReturned
  end.

(** Apply [change] to a row if it is the answer object [a] . *)
Definition change_if_same (a : Answer) (change : Answer -> Answer) (b : Answer) : Answer :=
  if decide (same_answer a b) then change b else b.

(** Rewrite the related sets of the answer object [a] in the store. *)
Definition update_answer (a : Answer) (change : Answer -> Answer) : M unit :=
  do db <- get_store;
  put_answers (change_if_same a change <$> Answer_objects db).

Definition with_choices (cs : list Choice) (b : Answer) : Answer :=
  {| Answer_submission := Answer_submission b;
     Answer_field := Answer_field b;
     Answer_data_form := Answer_data_form b;
     answerchoice_set := cs;
     answernumber_set := answernumber_set b;
     answertext_set := answertext_set b |}.

Definition with_numbers (ns : list atom) (b : Answer) : Answer :=
  {| Answer_submission := Answer_submission b;
     Answer_field := Answer_field b;
     Answer_data_form := Answer_data_form b;
     answerchoice_set := answerchoice_set b;
     answernumber_set := ns;
     answertext_set := answertext_set b |}.

Definition with_texts (ts : list string) (b : Answer) : Answer :=
  {| Answer_submission := Answer_submission b;
     Answer_field := Answer_field b;
     Answer_data_form := Answer_data_form b;
     answerchoice_set := answerchoice_set b;
     answernumber_set := answernumber_set b;
     answertext_set := ts |}.

(** [for row in AnswerChoice.objects.filter(answer=a): row.delete()] *)
Definition delete_answer_choices (a : Answer) : M unit :=
  update_answer a (with_choices []).

(** [a.answerchoice_set.create(choice=c)] *)
Definition create_answer_choice (a : Answer) (c : Choice) : M unit :=
  update_answer a (fun b => with_choices (answerchoice_set b ++ [c]) b).

(** [for row in AnswerNumber.objects.filter(answer=a): row.delete()] *)
Definition delete_answer_numbers (a : Answer) : M unit :=
  update_answer a (with_numbers []).

(** [a.answernumber_set.create(number=n)] *)
Definition create_answer_number (a : Answer) (n : atom) : M unit :=
  update_answer a (fun b => with_numbers (answernumber_set b ++ [n]) b).

(** [a.answertext_set.create(text=content)] *)
Definition create_answer_text (a : Answer) (content : string) : M unit :=
  update_answer a (fun b => with_texts (answertext_set b ++ [content]) b).

(** The text rows of the answer object [a], as [a.answertext_set] reads
    them from the store. *)
Definition answertext_rows (a : Answer) : M (list string) :=
  do db <- get_store;
  ret (mjoin (answertext_set <$> filter (same_answer a) (Answer_objects db))).

(** [answer_text.text = content; answer_text.save()] on the one text row. *)
Definition save_answer_text (a : Answer) (content : string) : M unit :=
  update_answer a (with_texts [content]).

(** ** Built forms *)

(** A control of a built form.  Its validation is the framework's; the
    record holds the type tag it was built from and what [field.clean]
    does with the submitted datum: a cleaned value, or a message. *)
Record Control : Type := {
  control_field_type : string;
  control_clean : option pyval -> string + pyval
}.

Module BaseDataForm.

(** The attributes of a form instance.  [submission] and [submission_slug]
    are set by [create_form] only when it has them, [_errors] and
    [cleaned_data] by validation. *)
Record t : Type := {
  slug : string;
  meta_slug : string;
  fields : list (string * Control);
  is_bound : bool;
  data : gmap string pyval;
  _errors : option (list (string * string));
  cleaned_data : option (gmap string pyval);
  submission : option Submission;
  submission_slug : option string;
  section : option string
}.

Definition set_fields (fs : list (string * Control)) (self : t) : t :=
  {| slug := slug self; meta_slug := meta_slug self; fields := fs;
     is_bound := is_bound self; data := data self; _errors := _errors self;
     cleaned_data := cleaned_data self; submission := submission self;
     submission_slug := submission_slug self; section := section self |}.

Definition set_validation (errs : list (string * string))
    (cleaned : option (gmap string pyval)) (self : t) : t :=
  {| slug := slug self; meta_slug := meta_slug self; fields := fields self;
     is_bound := is_bound self; data := data self; _errors := Some errs;
     cleaned_data := cleaned; submission := submission self;
     submission_slug := submission_slug self; section := section self |}.

Definition set_cleaned_data (cleaned : gmap string pyval) (self : t) : t :=
  {| slug := slug self; meta_slug := meta_slug self; fields := fields self;
     is_bound := is_bound self; data := data self; _errors := _errors self;
     cleaned_data := Some cleaned; submission := submission self;
     submission_slug := submission_slug self; section := section self |}.

Definition set_submission (sub : Submission) (self : t) : t :=
  {| slug := slug self; meta_slug := meta_slug self; fields := fields self;
     is_bound := is_bound self; data := data self; _errors := _errors self;
     cleaned_data := cleaned_data self; submission := Some sub;
     submission_slug := submission_slug self; section := section self |}.

(** *** Validation (the framework's [BaseForm]) *)

(** [_clean_fields]: every control cleans its datum; a failure leaves a
    message under the control's key, a success a cleaned value. *)
Fixpoint _clean_fields (fs : list (string * Control)) (d : gmap string pyval)
    (errs : list (string * string)) (cleaned : gmap string pyval)
    : list (string * string) * gmap string pyval :=
  match fs with
  | [] => (errs, cleaned)
  | (name, control) :: fs' =>
      match control_clean control (d !! name) with
      | inr value => _clean_fields fs' d errs (<[name := value]> cleaned)
      | inl message => _clean_fields fs' d (errs ++ [(name, message)]) (delete name cleaned)
      end
  end.

(** [full_clean]: fills [_errors], and [cleaned_data] when the form is
    bound and no control failed. *)
Definition full_clean (self : t) : t :=
  if is_bound self then
    let '(errs, cleaned) := _clean_fields (fields self) (data self) [] ∅ in
    set_validation errs (match errs with [] => Some cleaned | _ :: _ => None end) self
  else set_validation [] (cleaned_data self) self.

(** The [errors] property: validates on first use. *)
Definition errors (self : t) : list (string * string) * t :=
  match _errors self with
  | Some errs => (errs, self)
  | None =>
      let self' := full_clean self in
      (default [] (_errors self'), self')
  end.

(** [BaseForm.is_valid]: [self.is_bound and not bool(self.errors)] *)
Definition BaseForm_is_valid (self : t) : bool * t :=
  if is_bound self then
    let '(errs, self') := errors self in
    (match errs with [] => true | _ :: _ => false end, self')
  else (false, self).

Section Methods.
Context `{!Settings} `{!Models}.

(** Delete the hidden bindings field before the form is processed. *)
Definition _remove_bindings_field (form : t) : t :=
  let hidden_bindings_field_slug :=
    _field_for_form HIDDEN_BINDINGS_SLUG (meta_slug form) in
  if bool_decide (hidden_bindings_field_slug ∈ (fields form).*1)
  then set_fields
         (filter (fun kv => kv.1 ≠ hidden_bindings_field_slug) (fields form)) form
  else form.

Definition is_valid (self : t) : bool * t :=
  BaseForm_is_valid (_remove_bindings_field self).

(** [self.cleaned_data[key]] *)
Definition cleaned (self : t) (key : string) : result pyval :=
  match cleaned_data self with
  | None => Raise AttributeError
  | Some d =>
      match d !! key with
      | Some v => Ok v
      | None => Raise KeyError
      end
  end.

(** [self.cleaned_data[key] = v] *)
Definition set_cleaned (key : string) (v : pyval) (self : t) : t :=
  match cleaned_data self with
  | Some d => set_cleaned_data (<[key := v]> d) self
  | None => self
  end.

(** [Choice.objects.filter(value__in=values)]: the choices whose value is
    that of some element of [values] . *)
Definition Choice_objects_filter_value_in (values : list atom) : M (list Choice) :=
  do db <- get_store;
  ret (filter (fun c => Choice_value c ∈ (fun a => char_column (PAtom a)) <$> values)
         (Choice_objects db)).

(** The branch on the classification of [field]: where the cleaned value
    of [key] is stored for [answer], which [get_or_create] has just
    returned with [was_created] . *)
Definition store_value (self : t) (key : string) (field : Field)
    (answer : Answer) (was_created : bool) : M t :=
  if tag_in (Field_field_type field) CHOICE_FIELDS then
    do _ <- delete_answer_choices answer;
    do v <- lift (cleaned self key);
    let self' :=
      match v with
      | PAtom (AStr s) => set_cleaned key (PList [AStr s]) self
      | _ => self
      end in
    do v' <- lift (cleaned self' key);
    do values <- lift (py_iter v');
    do choices <- Choice_objects_filter_value_in values;
    do _ <- for_each choices (create_answer_choice answer);
    ret self'
  else if tag_in (Field_field_type field) SINGLE_NUMBER_FIELDS then
    do v <- lift (cleaned self key);
    do n <- lift (py_len v);
    if negb (Nat.eqb n 1) then raise AssertionError
    else
      do _ <- delete_answer_numbers answer;
      do number <- lift (py_first v);
      do _ <- create_answer_number answer number;
      ret self
  else if tag_in (Field_field_type field) MULTI_NUMBER_FIELDS then
    do _ <- delete_answer_numbers answer;
    do v <- lift (cleaned self key);
    do nums <- lift (py_iter v);
    do _ <- for_each nums (create_answer_number answer);
    ret self
  else
    do v <- lift (cleaned self key);
    let content := if truthy v then v else PAtom (AStr "") in
    if was_created then
      do _ <- create_answer_text answer (char_column content);
      ret self
    else
      do rows <- answertext_rows answer;
      match rows with
      | [] =>
          do _ <- create_answer_text answer (char_column content);
          ret self
      | [text] =>
          if bool_decide (PAtom (AStr text) ≠ content)
          then do _ <- save_answer_text answer (char_column content); ret self
          else ret self
      | _ :: _ :: _ => raise MultipleObjectsReturned
      end.

(** The body of the loop of [save] for one key of [self.fields], with
    [self.submission] at hand: the field and the answer are looked up,
    then the value is stored. *)
Definition save_key (sub : Submission) (self : t) (key : string) : M t :=
  do name <- lift (_field_for_db key false);
  do field <- Field_objects_get (db_field_name name);
  do data_form <- DataForm_objects_get (slug self);
  do (answer, was_created) <- Answer_objects_get_or_create sub field data_form;
  store_value self key field answer was_created.

(** The loop [for key in self.fields.keys()] . *)
Fixpoint save_keys (sub : Submission) (self : t) (keys : list string) : M t :=
  match keys with
  | [] => ret self
  | key :: keys' =>
      do self' <- save_key sub self key;
      save_keys sub self' keys'
  end.

(** Saves the validated, cleaned form data.  The submission is looked up
    or created only when the form has no [submission] attribute yet. *)
Definition save (self : t) : M t :=
  do (sub, self') <-
    match submission self with
    | Some sub => ret (sub, self)
    | None =>
        match submission_slug self with
        | None => raise AttributeError
        | Some sslug =>
            do (sub, was_created) <- Submission_objects_get_or_create sslug;
            ret (sub, set_submission sub self)
        end
    end;
  save_keys sub self' (fields self').*1.

End Methods.

End BaseDataForm.

(** ** Collections *)

(** [l[i]] on a Python list, negative indices counting from the end. *)
Definition list_getitem {A} (l : list A) (i : Z) : result A :=
  let j := if (i <? 0)%Z then (i + Z.of_nat (length l))%Z else i in
  if (j <? 0)%Z then Raise IndexError
  else match l !! Z.to_nat j with
       | Some x => Ok x
       | None => Raise IndexError
       end.

(** [l[a, b]]: a Python list subscripted by a tuple.  List indices must
    be integers, so this is a [TypeError] for every list and every pair; the
    type of the result is the one the caller goes on with. *)
Definition list_getitem_tuple {A} (l : list A) (key : Z * Z) : result (list A) :=
  Raise TypeError.

(** [xs.index(x)] *)
Fixpoint list_index (xs : list string) (x : string) : result Z :=
  match xs with
  | [] => Raise ValueError
  | y :: xs' =>
      if bool_decide (y = x) then Ok 0%Z
      else match list_index xs' x with
           | Ok i => Ok (i + 1)%Z
           | Raise e => Raise e
           end
  end.

(** The argument of [set_section]: nothing, a slug, or a [Section] . *)
Inductive section_arg : Type :=
| NoSection
| SectionSlug (slug : string)
| SectionObject (section : Section_).

Module BaseCollection.

Record t : Type := {
  title : string;
  description : string;
  slug : string;
  forms : list BaseDataForm.t;
  sections : list Section_;
  __form_existence : list bool;
  _section : Z;
  _next_section : option Z;
  _prev_section : option Z;
  section : option Section_;
  next_section : option Section_;
  prev_section : option Section_
}.

Definition set___form_existence (mask : list bool) (self : t) : t :=
  {| title := title self; description := description self; slug := slug self;
     forms := forms self; sections := sections self;
     __form_existence := mask;
     _section := _section self; _next_section := _next_section self;
     _prev_section := _prev_section self; section := section self;
     next_section := next_section self; prev_section := prev_section self |}.

Definition set_indexes (cur : Z) (next prev : option Z) (self : t) : t :=
  {| title := title self; description := description self; slug := slug self;
     forms := forms self; sections := sections self;
     __form_existence := __form_existence self;
     _section := cur; _next_section := next; _prev_section := prev;
     section := section self; next_section := next_section self;
     prev_section := prev_section self |}.

Definition set_objects (cur next prev : option Section_) (self : t) : t :=
  {| title := title self; description := description self; slug := slug self;
     forms := forms self; sections := sections self;
     __form_existence := __form_existence self;
     _section := _section self; _next_section := _next_section self;
     _prev_section := _prev_section self;
     section := cur; next_section := next; prev_section := prev |}.

Definition set_forms (fs : list BaseDataForm.t) (self : t) : t :=
  {| title := title self; description := description self; slug := slug self;
     forms := fs; sections := sections self;
     __form_existence := __form_existence self;
     _section := _section self; _next_section := _next_section self;
     _prev_section := _prev_section self; section := section self;
     next_section := next_section self; prev_section := prev_section self |}.

(** [self.sections[i] if i is not None else None] *)
Definition section_at (self : t) (i : option Z) : result (option Section_) :=
  match i with
  | None => Ok None
  | Some i =>
      match list_getitem (sections self) i with
      | Ok s => Ok (Some s)
      | Raise e => Raise e
      end
  end.

(** Set the visible section whose forms are returned by indexing.  The
    result pairs what the call returns or raises with the collection as the
    call leaves it: the mask is assigned before anything can raise. *)
Definition set_section (self : t) (arg : section_arg) : result unit * t :=
  let section :=
    match arg with
    | NoSection => None
    | SectionSlug s => Some s
    | SectionObject sec => Some (Section_slug sec)
    end in
  let mask :=
    match section with
    | None => (fun form => true) <$> forms self
    | Some s =>
        (fun form => bool_decide (BaseDataForm.section form = Some s))
          <$> forms self
    end in
  let self := set___form_existence mask self in
  if negb (bool_decide (true ∈ __form_existence self))
  then (Raise SectionDoesNotExist, self)
  else
    let index :=
      match section with
      | None => Ok 0%Z
      | Some s =>
          if String.eqb s "" then Ok 0%Z
          else list_index (Section_slug <$> sections self) s
      end in
    match index with
    | Raise e => (Raise e, self)
    | Ok cur =>
        let next :=
          if (cur + 1 <? Z.of_nat (length (sections self)))%Z
          then Some (cur + 1)%Z else None in
        let prev := if (0 <=? cur - 1)%Z then Some (cur - 1)%Z else None in
        let self := set_indexes cur next prev self in
        match list_getitem (sections self) cur with
        | Raise e => (Raise e, self)
        | Ok s =>
            match section_at self next with
            | Raise e => (Raise e, set_objects (Some s) (next_section self) (prev_section self) self)
            | Ok n =>
                match section_at self prev with
                | Raise e => (Raise e, set_objects (Some s) n (prev_section self) self)
                | Ok p => (Ok tt, set_objects (Some s) n p self)
                end
            end
        end
    end.

(** The constructor: the attributes given, then [self.set_section()] . *)
Definition __init__ (title description slug : string)
    (forms : list BaseDataForm.t) (sections : list Section_) : result t :=
  let self :=
    {| title := title; description := description; slug := slug;
       forms := forms; sections := sections;
       __form_existence := []; _section := 0%Z;
       _next_section := None; _prev_section := None;
       section := None; next_section := None; prev_section := None |} in
  match set_section self NoSection with
  | (Ok _, self') => Ok self'
  | (Raise e, _) => Raise e
  end.

(** The arguments of a call of the constructor by keyword; one that the
    call does not pass is [None] here. *)
Record init_kwargs : Type := {
  kw_title : option string;
  kw_description : option string;
  kw_slug : option string;
  kw_forms : option (list BaseDataForm.t);
  kw_sections : option (list Section_)
}.

(** A call of the class by keyword: every parameter of [__init__] is
    required. *)
Definition call (kw : init_kwargs) : result t :=
  match kw_title kw, kw_description kw, kw_slug kw, kw_forms kw, kw_sections kw with
  | Some title, Some description, Some slug, Some forms, Some sections =>
      __init__ title description slug forms sections
  | _, _, _, _, _ => Raise TypeError
  end.

(** The loop of [__getitem__] over [i in range(0, len(self.forms)+1)],
    from the index list that is left and the running [fake_index].  It
    returns the position in [self.forms] of the form handed out. *)
Fixpoint getitem_loop (self : t) (arg : Z) (range : list nat) (fake_index : Z)
    : result (option nat) :=
  match range with
  | [] => Ok None
  | i :: range' =>
      match (__form_existence self !! i : option bool) with
      | None => Raise IndexError
      | Some visible =>
          let fake_index := if visible then (fake_index + 1)%Z else fake_index in
          if (fake_index =? arg)%Z then
            match forms self !! i with
            | Some _ => Ok (Some i)
            | None => Raise IndexError
            end
          else getitem_loop self arg range' fake_index
      end
  end.

(** The position in [self.forms] of [self[arg]]; [None] when the loop runs
    to its end, where the method returns [None] . *)
Definition getitem_position (self : t) (arg : Z) : result (option nat) :=
  getitem_loop self arg (seq 0 (length (forms self) + 1)) (-1)%Z.

(** [self[arg]] *)
Definition __getitem__ (self : t) (arg : Z) : result (option BaseDataForm.t) :=
  match getitem_position self arg with
  | Ok (Some i) => Ok (forms self !! i)
  | Ok None => Ok None
  | Raise e => Raise e
  end.

(** [self[start:end]]: the arguments of the constructor call are evaluated
    first, then the call is made without [sections] . *)
Definition __getslice__ (self : t) (start end_ : Z) : result t :=
  match list_getitem_tuple (forms self) (start, end_) with
  | Raise e => Raise e
  | Ok forms =>
      call {| kw_title := Some (title self);
              kw_description := Some (description self);
              kw_slug := Some (slug self);
              kw_forms := Some forms;
              kw_sections := None |}
  end.

(** The number of contained forms that are visible. *)
Definition __len__ (self : t) : nat :=
  length (filter (fun truth => truth = true) (__form_existence self)).

Section Methods.
Context `{!Settings} `{!Models}.

(** The loop of [is_valid]: [for form in self] asks for [self[0]],
    [self[1]], ... until [IndexError]; a form that is validated is changed
    in place.  [fuel] bounds the number of items asked for; [None] is
    returned if it runs out. *)
Fixpoint is_valid_from (fuel : nat) (i : Z) (self : t)
    : option (result bool * t) :=
  match fuel with
  | O => None
  | S fuel' =>
      match getitem_position self i with
      | Raise IndexError => Some (Ok true, self)
      | Raise e => Some (Raise e, self)
      | Ok None => Some (Raise AttributeError, self)
      | Ok (Some pos) =>
          match forms self !! pos with
          | None => Some (Raise IndexError, self)
          | Some form =>
              let '(valid, form') := BaseDataForm.is_valid form in
              let self' := set_forms (<[pos := form']> (forms self)) self in
              if negb valid then Some (Ok false, self')
              else is_valid_from fuel' (i + 1)%Z self'
          end
      end
  end.

(** Validate all contained forms. *)
Definition is_valid (self : t) : option (result bool * t) :=
  is_valid_from (length (forms self) + 2) 0%Z self.

End Methods.

End BaseCollection.

(** ** Answers of a submission *)


Section Answers.
Context `{!Settings} `{!Models}.





End Answers.

(** ** Bindings *)

(** An element of the list that [get_bindings] returns. *)
Inductive binding_tuple : Type :=
| FieldBinding (parent child : string)
| ChoiceBinding (parent parent_choice child : string).

Section Bindings.
Context `{!Settings}.

(** The body of the loop of [get_bindings] for one binding. *)
Definition binding_entry (form : DataForm) (binding : Binding) : result binding_tuple :=
  let child := _field_for_form (Field_slug (Binding_child binding)) (DataForm_slug form) in
  match Binding_parent_field binding with
  | Some parent_field =>
      let parent := _field_for_form (Field_slug parent_field) (DataForm_slug form) in
      Ok (FieldBinding parent child)
  | None =>
      match Binding_parent_choice binding with
      | Some field_choice =>
          let parent :=
            _field_for_form (Field_slug (FieldChoice_field field_choice))
              (DataForm_slug form) in
          let parent_choice := Choice_value (FieldChoice_choice field_choice) in
          Ok (ChoiceBinding parent parent_choice child)
      | None => Raise FieldError
      end
  end.

Fixpoint bindings_loop (form : DataForm) (bindings : list Binding)
    (data : list binding_tuple) : result (list binding_tuple) :=
  match bindings with
  | [] => Ok data
  | binding :: bindings' =>
      match binding_entry form binding with
      | Ok entry => bindings_loop form bindings' (data ++ [entry])
      | Raise e => Raise e
      end
  end.

(** Get the bindings of a form. *)
Definition get_bindings (form : DataForm) : M (list binding_tuple) :=
  do db <- get_store;
  let bindings := filter (fun b => Binding_data_form b = form) (Binding_objects db) in
  lift (bindings_loop form bindings []).

End Bindings.

(** ** Reference notions used in the statements *)

(** The forms of a collection whose mask entry is true, in list order. *)
Definition visible_forms (self : BaseCollection.t) : list BaseDataForm.t :=
  (filter (fun p => p.1 = true)
     (zip (BaseCollection.__form_existence self) (BaseCollection.forms self))).*2.

(** The slug that [set_section] compares the forms' tags with. *)
Definition requested_slug (arg : section_arg) : option string :=
  match arg with
  | NoSection => None
  | SectionSlug s => Some s
  | SectionObject sec => Some (Section_slug sec)
  end.

(** A form is selected by a request when there is no slug, or its tag is
    the slug. *)
Definition selected_by (arg : section_arg) (form : BaseDataForm.t) : bool :=
  match requested_slug arg with
  | None => true
  | Some s => bool_decide (BaseDataForm.section form = Some s)
  end.


(** ** Sample data *)

(** A required text box: an absent or empty datum is rejected. *)
Definition required_text : Control := {|
  control_field_type := "TextInput";
  control_clean := fun datum =>
    match datum with
    | Some (PAtom (AStr s)) =>
        if String.eqb s "" then inl "This field is required." else inr (PAtom (AStr s))
    | Some v => inr v
    | None => inl "This field is required."
    end
|}.

(** A bound form with one required text box and nothing submitted for it. *)
Definition blank_form (form_slug section_slug : string) : BaseDataForm.t := {|
  BaseDataForm.slug := form_slug;
  BaseDataForm.meta_slug := form_slug;
  BaseDataForm.fields := [(form_slug +:+ "--name", required_text)];
  BaseDataForm.is_bound := true;
  BaseDataForm.data := ∅;
  BaseDataForm._errors := None;
  BaseDataForm.cleaned_data := None;
  BaseDataForm.submission := None;
  BaseDataForm.submission_slug := Some "visit-1";
  BaseDataForm.section := Some section_slug
|}.

Definition section_one : Section_ := {| Section_slug := "s1" |}.
Definition section_two : Section_ := {| Section_slug := "s2" |}.

(** Three forms tagged [s1; s1; s2], before any section is selected. *)
Definition three_forms : BaseCollection.t := {|
  BaseCollection.title := "Intake";
  BaseCollection.description := "";
  BaseCollection.slug := "intake";
  BaseCollection.forms :=
    [blank_form "personal" "s1"; blank_form "address" "s1"; blank_form "consent" "s2"];
  BaseCollection.sections := [section_one; section_two];
  BaseCollection.__form_existence := [];
  BaseCollection._section := 0%Z;
  BaseCollection._next_section := None;
  BaseCollection._prev_section := None;
  BaseCollection.section := None;
  BaseCollection.next_section := None;
  BaseCollection.prev_section := None
|}.

(** The collection above with the [s1]-only mask active. *)
Definition three_forms_s1 : BaseCollection.t :=
  (BaseCollection.set_section three_forms (SectionSlug "s1")).2.

(** The position of the [r]-th true entry of a mask, counting from 0. *)
Fixpoint nth_true (mask : list bool) (r : nat) : option nat :=
  match mask with
  | [] => None
  | true :: mask' =>
      match r with
      | O => Some O
      | S r' => S <$> nth_true mask' r'
      end
  | false :: mask' => S <$> nth_true mask' r
  end.

(** The collection above as its constructor leaves it: every form visible. *)
Definition three_forms_all : BaseCollection.t :=
  (BaseCollection.set_section three_forms NoSection).2.


(** A character column as used in the sample data: strings are stored as
    they are, other scalars by their Python spelling. *)
Definition atom_text (a : atom) : string :=
  match a with
  | ANone => "None"
  | ABool true => "True"
  | ABool false => "False"
  | AStr s => s
  | AInt z => pretty z
  end.

Definition value_text (v : pyval) : string :=
  match v with
  | PAtom a => atom_text a
  | PList l => "[" +:+ String.concat ", " (atom_text <$> l) +:+ "]"
  end.

(** A model layer whose [get_answer_data] reports the given rows. *)
Definition models_reporting (rows : list answer_row) : Models := {|
  char_column := value_text;
  get_answer_data := fun _ _ => rows
|}.




(** Bindings of the form [survey]: one on a parent field, one on a parent
    choice, and one on both. *)
Definition survey_form : DataForm := {| DataForm_slug := "survey" |}.
Definition pets_field : Field :=
  {| Field_slug := "pets"; Field_field_type := "CheckboxInput" |}.
Definition pet_kind_field : Field :=
  {| Field_slug := "pet-kind"; Field_field_type := "Select" |}.
Definition pet_name_field : Field :=
  {| Field_slug := "pet-name"; Field_field_type := "TextInput" |}.
Definition dog_choice : FieldChoice :=
  {| FieldChoice_field := pet_kind_field;
     FieldChoice_choice := {| Choice_value := "dog"; Choice_title := "Dog" |} |}.

(** A binding with its parent field and its parent choice both set. *)
Definition both_parents : Binding := {|
  Binding_data_form := survey_form;
  Binding_child := pet_name_field;
  Binding_parent_field := Some pets_field;
  Binding_parent_choice := Some dog_choice
|}.

Definition survey_bindings : Store := {|
  Submission_objects := [];
  Field_objects := [pets_field; pet_kind_field; pet_name_field];
  DataForm_objects := [survey_form];
  Choice_objects := [FieldChoice_choice dog_choice];
  Binding_objects :=
    [ {| Binding_data_form := survey_form; Binding_child := pet_kind_field;
         Binding_parent_field := Some pets_field; Binding_parent_choice := None |};
      {| Binding_data_form := survey_form; Binding_child := pet_name_field;
         Binding_parent_field := None; Binding_parent_choice := Some dog_choice |};
      both_parents ];
  Answer_objects := []
|}.

(** ** What a save leaves in the store *)

(** The answer rows of a store for a submission, a field and a form. *)
Definition answers_for (db : Store) (sub : Submission) (field : Field)
    (form : DataForm) : list Answer :=
  filter (answer_for sub field form) (Answer_objects db).

(** Changes to the related sets keep a row the answer it is. *)
Definition keeps_answer (change : Answer -> Answer) : Prop :=
  ∀ b, Answer_submission (change b) = Answer_submission b
       ∧ Answer_field (change b) = Answer_field b
       ∧ Answer_data_form (change b) = Answer_data_form b.

(** The choices whose value is that of some element of [values] . *)
Definition choices_with_value_in `{!Models} (db : Store) (values : list atom)
    : list Choice :=
  filter (fun c => Choice_value c ∈ (fun a => char_column (PAtom a)) <$> values)
    (Choice_objects db).

(** The text that the default branch of [save] stores for a cleaned value. *)
Definition text_content (v : pyval) : pyval :=
  if truthy v then v else PAtom (AStr "").

Section Stored.
Context `{!Settings} `{!Models}.

(** The related sets of [answer] hold the cleaned value of [key] of the
    form [self], in the storage shape of [field] and nothing else. *)
Definition values_stored (db : Store) (self : BaseDataForm.t) (key : string)
    (field : Field) (answer : Answer) : Prop :=
  if tag_in (Field_field_type field) CHOICE_FIELDS then
    ∃ values,
      BaseDataForm.cleaned self key = Ok (PList values)
      ∧ answerchoice_set answer = choices_with_value_in db values
  else if tag_in (Field_field_type field) SINGLE_NUMBER_FIELDS then
    ∃ v number,
      BaseDataForm.cleaned self key = Ok v
      ∧ py_len v = Ok 1
      ∧ py_first v = Ok number
      ∧ answernumber_set answer = [number]
  else if tag_in (Field_field_type field) MULTI_NUMBER_FIELDS then
    ∃ v numbers,
      BaseDataForm.cleaned self key = Ok v
      ∧ py_iter v = Ok numbers
      ∧ answernumber_set answer = numbers
  else
    ∃ v text,
      BaseDataForm.cleaned self key = Ok v
      ∧ answertext_set answer = [text]
      ∧ (PAtom (AStr text) = text_content v ∨ text = char_column (text_content v)).

(** The cleaned value of a choice field as the loop leaves it in
    [cleaned_data]: a bare string wrapped as a one-element list. *)
Definition wrapped (v : pyval) : pyval :=
  match v with
  | PAtom (AStr s) => PList [AStr s]
  | _ => v
  end.

(** The cleaned value of [key] after a save of the form whose cleaned
    value was [v] . *)
Definition cleaned_after (field : Field) (v : pyval) : pyval :=
  if tag_in (Field_field_type field) CHOICE_FIELDS then wrapped v else v.

(** The form kept its class and instance attributes other than
    [cleaned_data] . *)
Definition same_attributes (self self' : BaseDataForm.t) : Prop :=
  BaseDataForm.slug self' = BaseDataForm.slug self
  ∧ BaseDataForm.fields self' = BaseDataForm.fields self
  ∧ BaseDataForm.submission self' = BaseDataForm.submission self.

(** The store holds exactly one answer for [key] under the submission
    [sub], and that answer holds the cleaned value that the form [before]
    the save had for [key], as the form [after] the save has it. *)
Definition key_stored (db : Store) (sub : Submission)
    (before after : BaseDataForm.t) (key : string) : Prop :=
  ∃ name field data_form answer v,
    _field_for_db key false = Ok name
    ∧ objects_get (filter (fun f => Field_slug f = db_field_name name) (Field_objects db))
      = Ok field
    ∧ objects_get (filter (fun f => DataForm_slug f = BaseDataForm.slug after)
                     (DataForm_objects db))
      = Ok data_form
    ∧ answers_for db sub field data_form = [answer]
    ∧ BaseDataForm.cleaned before key = Ok v
    ∧ BaseDataForm.cleaned after key = Ok (cleaned_after field v)
    ∧ values_stored db after key field answer.

End Stored.

(** A step changes nothing but the answer rows of one submission, field
    and form. *)
Definition only_touches (sub : Submission) (field : Field) (form : DataForm)
    (db db' : Store) : Prop :=
  Submission_objects db' = Submission_objects db
  ∧ Field_objects db' = Field_objects db
  ∧ DataForm_objects db' = DataForm_objects db
  ∧ Choice_objects db' = Choice_objects db
  ∧ Binding_objects db' = Binding_objects db
  ∧ ∀ s f d, ¬ (s = sub ∧ f = field ∧ d = form) ->
      answers_for db' s f d = answers_for db s f d.

(** The answer row that [get_or_create] makes. *)
Definition new_answer (sub : Submission) (field : Field) (form : DataForm) : Answer :=
  {| Answer_submission := sub;
     Answer_field := field;
     Answer_data_form := form;
     answerchoice_set := [];
     answernumber_set := [];
     answertext_set := [] |}.

(** A control that accepts whatever is submitted for it. *)
Definition plain_control (field_type : string) : Control := {|
  control_field_type := field_type;
  control_clean := fun datum =>
    match datum with
    | Some v => inr v
    | None => inl "This field is required."
    end
|}.

Definition choice_a : Choice := {| Choice_value := "a"; Choice_title := "A" |}.
Definition choice_b : Choice := {| Choice_value := "b"; Choice_title := "B" |}.
Definition choice_c : Choice := {| Choice_value := "c"; Choice_title := "C" |}.

Definition colours_field : Field :=
  {| Field_slug := "colours"; Field_field_type := "SelectMultiple" |}.
Definition sizes_field : Field :=
  {| Field_slug := "sizes"; Field_field_type := "MultiIntegerInput" |}.
Definition age_field : Field :=
  {| Field_slug := "age"; Field_field_type := "IntegerInput" |}.
Definition name_field : Field :=
  {| Field_slug := "name"; Field_field_type := "TextInput" |}.

(** The schema of the form [survey] with its four fields and three
    choices; no submission and no answer yet. *)
Definition survey_store : Store := {|
  Submission_objects := [];
  Field_objects := [colours_field; sizes_field; age_field; name_field];
  DataForm_objects := [survey_form];
  Choice_objects := [choice_a; choice_b; choice_c];
  Binding_objects := [];
  Answer_objects := []
|}.

(** The form [survey], validated, with the given cleaned data. *)
Definition survey_with (cleaned : gmap string pyval) : BaseDataForm.t := {|
  BaseDataForm.slug := "survey";
  BaseDataForm.meta_slug := "survey";
  BaseDataForm.fields :=
    [ ("survey--colours", plain_control "SelectMultiple");
      ("survey--sizes", plain_control "MultiIntegerInput");
      ("survey--age", plain_control "IntegerInput");
      ("survey--name", plain_control "TextInput") ];
  BaseDataForm.is_bound := true;
  BaseDataForm.data := ∅;
  BaseDataForm._errors := Some [];
  BaseDataForm.cleaned_data := Some cleaned;
  BaseDataForm.submission := None;
  BaseDataForm.submission_slug := Some "visit-1";
  BaseDataForm.section := None
|}.

(** Selections [a] and [b], numbers 1, 2, 3. *)
Definition first_answers : BaseDataForm.t :=
  survey_with
    (<["survey--colours" := PList [AStr "a"; AStr "b"]]>
       (<["survey--sizes" := PList [AInt 1; AInt 2; AInt 3]]>
          (<["survey--age" := PList [AInt 30]]>
             (<["survey--name" := PAtom (AStr "hello")]> ∅)))).

(** Selection [c] as a bare string, number 5. *)
Definition second_answers : BaseDataForm.t :=
  survey_with
    (<["survey--colours" := PAtom (AStr "c")]>
       (<["survey--sizes" := PList [AInt 5]]>
          (<["survey--age" := PList [AInt 31]]>
             (<["survey--name" := PAtom (AStr "bye")]> ∅)))).

(** An age given as two numbers. *)
Definition two_ages : BaseDataForm.t :=
  survey_with
    (<["survey--colours" := PList [AStr "a"]]>
       (<["survey--sizes" := PList []]>
          (<["survey--age" := PList [AInt 30; AInt 31]]>
             (<["survey--name" := PAtom (AStr "hello")]> ∅)))).

(** The store after [first_answers] has been saved. *)
Definition survey_saved_once : Store :=
  (@BaseDataForm.save hyphen_settings (models_reporting []) first_answers survey_store).2.

(** The submission that the saves of the sample forms create. *)
Definition visit_one : Submission :=
  {| Submission_id := 1; Submission_slug := "visit-1" |}.

(** What a computation returned, or [default] if it raised. *)
Definition returned {A} (default : A) (outcome : result A * Store) : A :=
  match outcome.1 with
  | Ok a => a
  | Raise _ => default
  end.

(** The form and the store after [second_answers] has been saved on top
    of the first save. *)
Definition second_answers_saved : BaseDataForm.t :=
  returned second_answers
    (@BaseDataForm.save hyphen_settings (models_reporting [])
       second_answers survey_saved_once).

Definition survey_saved_twice : Store :=
  (@BaseDataForm.save hyphen_settings (models_reporting [])
     second_answers survey_saved_once).2.

(** The form after [first_answers] has been saved. *)
Definition first_answers_saved : BaseDataForm.t :=
  returned first_answers
    (@BaseDataForm.save hyphen_settings (models_reporting [])
       first_answers survey_store).

(** The form [two_ages] with the submission of the first save attached,
    and the loop of its save up to the field [age] . *)
Definition two_ages_bound : BaseDataForm.t :=
  BaseDataForm.set_submission visit_one two_ages.

Definition two_ages_midway : result BaseDataForm.t * Store :=
  @BaseDataForm.save_keys hyphen_settings (models_reporting [])
    visit_one two_ages_bound ["survey--colours"; "survey--sizes"] survey_saved_once.

(** The positions of the true entries of a mask, in order, counted from
    [offset] . *)
Fixpoint true_positions (mask : list bool) (offset : nat) : list nat :=
  match mask with
  | [] => []
  | true :: mask' => offset :: true_positions mask' (S offset)
  | false :: mask' => true_positions mask' (S offset)
  end.

(** What the loop of [BaseCollection.is_valid] does, written by recursion
    on the positions of the forms it is going to visit: it validates them
    in turn and returns at the first one that is not valid. *)
Fixpoint validate_until_failure `{!Settings} (positions : list nat)
    (self : BaseCollection.t) : result bool * BaseCollection.t :=
  match positions with
  | [] => (Ok true, self)
  | pos :: rest =>
      match BaseCollection.forms self !! pos with
      | None => (Raise IndexError, self)
      | Some form =>
          let '(valid, form') := BaseDataForm.is_valid form in
          let self' :=
            BaseCollection.set_forms (<[pos := form']> (BaseCollection.forms self)) self in
          if negb valid then (Ok false, self')
          else validate_until_failure rest self'
      end
  end.

(** A bound form, not validated yet, whose hidden bindings field got no
    datum although its control asks for one. *)
Definition named_form : BaseDataForm.t := {|
  BaseDataForm.slug := "survey";
  BaseDataForm.meta_slug := "survey";
  BaseDataForm.fields :=
    [ ("survey--name", required_text);
      ("survey--js_dataform_bindings", required_text) ];
  BaseDataForm.is_bound := true;
  BaseDataForm.data := {[ "survey--name" := PAtom (AStr "Ada") ]};
  BaseDataForm._errors := None;
  BaseDataForm.cleaned_data := None;
  BaseDataForm.submission := None;
  BaseDataForm.submission_slug := Some "visit-1";
  BaseDataForm.section := None
|}.

(** ** Building a collection *)

(** The loop of [create_collection] that makes the section list unique: a
    row is appended to [sections] unless it is in it already.  The rows are
    of any type whose equality is the one that [in] tests. *)
Fixpoint unique_sections_loop {A} `{!EqDecision A}
    (non_unique_sections sections : list A) : list A :=
  match non_unique_sections with
  | [] => sections
  | section :: rest =>
      if bool_decide (section ∈ sections)
      then unique_sections_loop rest sections
      else unique_sections_loop rest (sections ++ [section])
  end.

(** [sections = []] and then the loop. *)
Definition unique_sections {A} `{!EqDecision A} (non_unique_sections : list A) : list A :=
  unique_sections_loop non_unique_sections [].

(** * Properties *)

(** ** Key mangling *)

Section KeyManglingFacts.

Lemma prefix_one_char c a s :
  String.prefix (String c EmptyString) (String a s) = bool_decide (c = a).
Proof.
  simpl. destruct (ascii_dec c a) as [->|Hne].
  - rewrite bool_decide_eq_true_2 by done. by destruct s.
  - by rewrite bool_decide_eq_false_2.
Qed.

Lemma contains_one_char_cons c a s :
  contains (String c EmptyString) (String a s) = false ->
  c ≠ a ∧ contains (String c EmptyString) s = false.
Proof.
  cbn [contains]. rewrite prefix_one_char.
  intros [Hhead Htail]%orb_false_iff. split; [|done].
  by apply bool_decide_eq_false in Hhead.
Qed.

Lemma append_cons a s t : String a s +:+ t = String a (s +:+ t).
Proof. reflexivity. Qed.

Lemma append_nil_l s : "" +:+ s = s.
Proof. reflexivity. Qed.

Lemma append_nil_r s : s +:+ "" = s.
Proof. induction s as [|a s IH]; [done|]. by rewrite append_cons, IH. Qed.

Lemma append_snoc s a t : (s +:+ String a "") +:+ t = s +:+ String a t.
Proof. induction s as [|b s IH]; [done|]. by rewrite !append_cons, IH. Qed.

(** A string without the separator is one piece. *)
Lemma split_from_no_separator c s cur :
  contains (String c EmptyString) s = false ->
  split_from (String c EmptyString) 0 cur s = [cur +:+ s].
Proof.
  revert cur. induction s as [|a s IH]; intros cur Hs.
  - cbn [split_from]. by rewrite append_nil_r.
  - apply contains_one_char_cons in Hs as [Hne Hs].
    cbn [split_from]. rewrite prefix_one_char, bool_decide_eq_false_2 by done.
    by rewrite IH, append_snoc.
Qed.

(** Two pieces joined by a one-character separator that neither contains
    are split back into the two. *)
Lemma split_from_joined c s f cur :
  contains (String c EmptyString) s = false ->
  contains (String c EmptyString) f = false ->
  split_from (String c EmptyString) 0 cur (s +:+ String c f) = [cur +:+ s; f].
Proof.
  revert cur. induction s as [|a s IH]; intros cur Hs Hf.
  - rewrite append_nil_l. cbn [split_from].
    rewrite prefix_one_char, bool_decide_eq_true_2 by done.
    cbn [String.length Nat.sub]. rewrite split_from_no_separator by done.
    by rewrite append_nil_r, append_nil_l.
  - apply contains_one_char_cons in Hs as [Hne Hs].
    rewrite append_cons. cbn [split_from].
    rewrite prefix_one_char, bool_decide_eq_false_2 by done.
    by rewrite IH, append_snoc.
Qed.

Context `{!Settings}.
Variable delimiter : ascii.
Hypothesis one_character : FIELD_DELIMITER = String delimiter EmptyString.

(** With a one-character delimiter that neither slug contains, the field
    slug comes back from the mangled key. *)
Lemma field_for_db_field_for_form f s :
  contains FIELD_DELIMITER f = false ->
  contains FIELD_DELIMITER s = false ->
  _field_for_db (_field_for_form f s) false = Ok (FieldName f).
Proof.
  rewrite one_character. intros Hf Hs.
  unfold _field_for_db, _field_for_form, split. rewrite one_character.
  replace (String.eqb (String delimiter "") "") with false by done.
  rewrite append_cons, append_nil_l. by rewrite split_from_joined.
Qed.

(** In packed mode the form component comes back without its first three
    characters whenever ["id_"] occurs anywhere in it. *)
Lemma field_for_db_packed f s :
  contains FIELD_DELIMITER f = false ->
  contains FIELD_DELIMITER s = false ->
  _field_for_db (_field_for_form f s) true =
    Ok (FormAndField (drop_chars (if contains "id_" s then 3 else 0) s) f).
Proof.
  rewrite one_character. intros Hf Hs.
  unfold _field_for_db, _field_for_form, split. rewrite one_character.
  replace (String.eqb (String delimiter "") "") with false by done.
  rewrite append_cons, append_nil_l. by rewrite split_from_joined.
Qed.

End KeyManglingFacts.

(** C2. Packed unpacking of a mangled key does not always give back the
    form slug: the form slug [paid_form] contains no delimiter and does not
    start with [id_], yet [_field_for_db] returns [d_form] for it, because
    the prefix is looked for anywhere in the name.  The field slug is
    returned as it was.  This is so with the two-hyphen delimiter of the
    docstrings and with a one-character delimiter. *)
Theorem field_for_db_packed_cuts_inner_id :
  @_field_for_db hyphen_settings
     (@_field_for_form hyphen_settings "amount" "paid_form") true
    = Ok (FormAndField "d_form" "amount")
  ∧ @_field_for_db colon_settings
     (@_field_for_form colon_settings "amount" "paid_form") true
    = Ok (FormAndField "d_form" "amount")
  ∧ @_field_for_db hyphen_settings
     (@_field_for_form hyphen_settings "amount" "paid_form") false
    = Ok (FieldName "amount")
  ∧ @_field_for_db hyphen_settings "id_paid_form--amount" true
    = Ok (FormAndField "paid_form" "amount").
Proof. repeat split; reflexivity. Qed.

(** With the two-hyphen delimiter a form slug that ends in a hyphen, or a
    field slug that starts with one, shifts the cut: neither slug contains
    the delimiter, yet the field slug does not come back. *)
Example field_for_db_hyphen_at_boundary :
  contains "--" "step-" = false
  ∧ contains "--" "name" = false
  ∧ @_field_for_db hyphen_settings
      (@_field_for_form hyphen_settings "name" "step-") false
    = Ok (FieldName "-name").
Proof. repeat split; reflexivity. Qed.

(** ** Collections: slicing *)

(** C10. Taking a slice of a collection raises for every collection and
    every pair of bounds, and so never returns a sub-collection: the forms
    list is subscripted by the pair of bounds, which is a [TypeError] for
    every list, and a call of the constructor that passes no [sections]
    is a [TypeError] whatever the other arguments are. *)
Theorem getslice_raises (self : BaseCollection.t) (start end_ : Z) :
  BaseCollection.__getslice__ self start end_ = Raise TypeError
  ∧ (∀ forms : list BaseDataForm.t,
       list_getitem_tuple forms (start, end_) = Raise TypeError)
  ∧ (∀ title description slug forms,
       BaseCollection.call
         {| BaseCollection.kw_title := title;
            BaseCollection.kw_description := description;
            BaseCollection.kw_slug := slug;
            BaseCollection.kw_forms := forms;
            BaseCollection.kw_sections := None |} = Raise TypeError).
Proof.
  split; [reflexivity|]. split; [reflexivity|].
  intros [?|] [?|] [?|] [?|]; reflexivity.
Qed.

(** ** Collections: the section mask *)

Lemma len_count_true (mask : list bool) :
  length (filter (fun truth => truth = true) mask) = 0 ↔ true ∉ mask.
Proof.
  induction mask as [|b mask IH].
  { split; [intros _; apply not_elem_of_nil|done]. }
  rewrite filter_cons, not_elem_of_cons. destruct b.
  - rewrite decide_True by done. cbn. split; [lia|]. by intros [? _].
  - rewrite decide_False by done. rewrite IH.
    split; [by intros ?|by intros [_ ?]].
Qed.

Lemma list_index_raise xs x e : list_index xs x = Raise e -> e = ValueError.
Proof.
  induction xs as [|y xs IH]; cbn; [congruence|].
  case_bool_decide; [done|]. destruct (list_index xs x); [done|].
  intros [= <-]. by apply IH.
Qed.

Lemma list_getitem_raise {A} (l : list A) i e :
  list_getitem l i = Raise e -> e = IndexError.
Proof. unfold list_getitem. repeat case_match; congruence. Qed.

Lemma section_at_raise self i e :
  BaseCollection.section_at self i = Raise e -> e = IndexError.
Proof.
  unfold BaseCollection.section_at. destruct i as [i|]; [|done].
  destruct (list_getitem _ i) eqn:Hget; [done|].
  intros [= <-]. by eapply list_getitem_raise.
Qed.

Lemma set_section_mask (self : BaseCollection.t) (arg : section_arg) :
  BaseCollection.__form_existence (BaseCollection.set_section self arg).2
  = selected_by arg <$> BaseCollection.forms self.
Proof.
  unfold BaseCollection.set_section, selected_by, requested_slug.
  repeat (case_match; simplify_eq/=; try done).
Qed.

Lemma set_section_forms (self : BaseCollection.t) (arg : section_arg) :
  BaseCollection.forms (BaseCollection.set_section self arg).2
  = BaseCollection.forms self.
Proof.
  unfold BaseCollection.set_section.
  repeat (case_match; simplify_eq/=; try done).
Qed.

Lemma visible_forms_fmap (select : BaseDataForm.t -> bool) (self : BaseCollection.t) :
  BaseCollection.__form_existence self = select <$> BaseCollection.forms self ->
  visible_forms self = filter (fun form => select form = true) (BaseCollection.forms self).
Proof.
  unfold visible_forms. intros ->.
  induction (BaseCollection.forms self) as [|form forms IH]; [done|].
  cbn [fmap list_fmap zip zip_with]. rewrite !filter_cons. cbn [fst].
  destruct (select form) eqn:Hsel; cbn.
  - rewrite decide_True by done. cbn. by f_equal.
  - rewrite decide_False by done. done.
Qed.

(** C7. [set_section] leaves the forms as they are and sets the mask to
    exactly the forms tagged with the requested section, to every form when
    no section is requested; it raises [SectionDoesNotExist] exactly when
    that mask selects no form.  On forms tagged [s1; s1; s2], requesting
    [s2] gives length 1, requesting no section gives length 3, and a
    section that no form carries raises [SectionDoesNotExist] . *)
Theorem set_section_selects (self : BaseCollection.t) (arg : section_arg) :
  let after := (BaseCollection.set_section self arg).2 in
  BaseCollection.forms after = BaseCollection.forms self
  ∧ visible_forms after
    = filter (fun form => selected_by arg form = true) (BaseCollection.forms self)
  ∧ (∀ i form, BaseCollection.forms self !! i = Some form ->
       BaseCollection.__form_existence after !! i
       = Some (match requested_slug arg with
               | None => true
               | Some s => bool_decide (BaseDataForm.section form = Some s)
               end))
  ∧ ((BaseCollection.set_section self arg).1 = Raise SectionDoesNotExist
     ↔ BaseCollection.__len__ after = 0)
  ∧ BaseCollection.__len__
      (BaseCollection.set_section three_forms (SectionSlug "s2")).2 = 1
  ∧ BaseCollection.__len__
      (BaseCollection.set_section three_forms (SectionObject section_two)).2 = 1
  ∧ BaseCollection.__len__ (BaseCollection.set_section three_forms NoSection).2 = 3
  ∧ (BaseCollection.set_section three_forms (SectionSlug "s3")).1
    = Raise SectionDoesNotExist.
Proof.
  cbn zeta. split; [apply set_section_forms|].
  split.
  { rewrite (visible_forms_fmap (selected_by arg)).
    - by rewrite set_section_forms.
    - by rewrite set_section_mask, set_section_forms. }
  split.
  { intros i form Hi. rewrite set_section_mask, list_lookup_fmap, Hi. done. }
  split; [|repeat split; reflexivity].
  unfold BaseCollection.__len__. rewrite len_count_true, set_section_mask.
  unfold BaseCollection.set_section.
  set (mask := match _ with None => _ | Some s => _ end).
  assert (mask = selected_by arg <$> BaseCollection.forms self) as <-.
  { unfold mask, selected_by, requested_slug. by destruct arg. }
  cbn [BaseCollection.__form_existence BaseCollection.set___form_existence].
  destruct (bool_decide (true ∈ mask)) eqn:Hmask; cbn [negb].
  - apply bool_decide_eq_true in Hmask.
    split; [|intros Hnot; contradiction]. intros Hraise. exfalso.
    destruct (match _ with None => Ok 0%Z | Some s => _ end) as [cur|e] eqn:Hindex.
    2:{ cbn in Hraise. simplify_eq.
        destruct arg; cbn in Hindex; try done;
          (case_match; [done|by apply list_index_raise in Hindex]). }
    destruct (list_getitem _ cur) as [s|e] eqn:Hcur.
    2:{ cbn in Hraise. simplify_eq. by apply list_getitem_raise in Hcur. }
    destruct (BaseCollection.section_at _ _) as [n|e] eqn:Hnext.
    2:{ cbn in Hraise. simplify_eq. by apply section_at_raise in Hnext. }
    destruct (BaseCollection.section_at _ (if (0 <=? _)%Z then _ else _))
      as [p|e] eqn:Hprev.
    2:{ cbn in Hraise. simplify_eq. by apply section_at_raise in Hprev. }
    done.
  - apply bool_decide_eq_false in Hmask. done.
Qed.

(** ** Collections: indexing and length *)

Lemma nth_true_lt (m : list bool) r j : nth_true m r = Some j -> j < length m.
Proof.
  revert r j. induction m as [|b m IH]; intros r j; [done|].
  destruct b; cbn [nth_true length].
  - destruct r as [|r]; [intros [= <-]; lia|].
    destruct (nth_true m r) as [j'|] eqn:Hj; [|done].
    intros [= <-]. apply IH in Hj. lia.
  - destruct (nth_true m r) as [j'|] eqn:Hj; [|done].
    intros [= <-]. apply IH in Hj. lia.
Qed.

Lemma visible_lookup (m : list bool) (fs : list BaseDataForm.t) r :
  length m = length fs ->
  (filter (fun p => p.1 = true) (zip m fs)).*2 !! r
  = nth_true m r ≫= fun j => fs !! j.
Proof.
  revert fs r. induction m as [|b m IH]; intros [|form fs] r Hlen; try done.
  cbn [zip zip_with]. rewrite filter_cons. cbn [fst].
  destruct b; cbn [nth_true].
  - rewrite decide_True by done. destruct r as [|r]; [done|].
    cbn [fmap list_fmap snd lookup list_lookup]. rewrite IH by (cbn in Hlen; lia).
    by destruct (nth_true m r).
  - rewrite decide_False by done. rewrite IH by (cbn in Hlen; lia).
    by destruct (nth_true m r).
Qed.

Lemma visible_length (m : list bool) (fs : list BaseDataForm.t) :
  length m = length fs ->
  length (filter (fun p => p.1 = true) (zip m fs)).*2
  = length (filter (fun truth => truth = true) m).
Proof.
  revert fs. induction m as [|b m IH]; intros [|form fs] Hlen; try done.
  cbn [zip zip_with]. rewrite !filter_cons. cbn [fst].
  destruct b.
  - rewrite !decide_True by done. cbn. f_equal. apply IH. cbn in Hlen; lia.
  - rewrite !decide_False by done. apply IH. cbn in Hlen; lia.
Qed.

Section Indexing.
Variable self : BaseCollection.t.
Let mask := BaseCollection.__form_existence self.
Let forms := BaseCollection.forms self.
Hypothesis mask_length : length mask = length forms.


(** The loop of [__getitem__] finds the position of the entry that makes
    [fake_index] reach [arg], or runs off the mask. *)
Lemma getitem_loop_spec (arg : Z) n k fake :
  k + n = length forms ->
  (fake < arg)%Z ->
  BaseCollection.getitem_loop self arg (seq k (S n)) fake
  = match nth_true (drop k mask) (Z.to_nat (arg - fake - 1)) with
    | Some j => Ok (Some (k + j))
    | None => Raise IndexError
    end.
Proof.
  revert k fake. induction n as [|n IH]; intros k fake Hk Hlt.
  - cbn [seq BaseCollection.getitem_loop]. fold mask.
    rewrite lookup_ge_None_2 by lia. rewrite drop_ge by lia. done.
  - rewrite <- cons_seq. cbn [BaseCollection.getitem_loop]. fold mask forms.
    destruct (lookup_lt_is_Some_2 mask k) as [b Hb]; [lia|].
    destruct (lookup_lt_is_Some_2 forms k) as [form Hform]; [lia|].
    rewrite Hb, Hform. rewrite (drop_S _ _ _ Hb).
    destruct b; cbn [nth_true].
    + destruct (Z.eqb_spec (fake + 1) arg) as [Heq|Hne].
      * replace (Z.to_nat (arg - fake - 1)) with 0 by lia.
        by rewrite Nat.add_0_r.
      * rewrite IH by lia.
        replace (Z.to_nat (arg - fake - 1))
          with (S (Z.to_nat (arg - (fake + 1) - 1))) by lia.
        destruct (nth_true _ _) as [j|]; cbn; [|done].
        do 2 f_equal. lia.
    + destruct (Z.eqb_spec fake arg) as [Heq|Hne]; [lia|].
      rewrite IH by lia.
      destruct (nth_true _ _) as [j|]; cbn; [|done].
      do 2 f_equal. lia.
Qed.



Lemma getitem_in_range (i : Z) form :
  (0 <= i)%Z ->
  visible_forms self !! Z.to_nat i = Some form ->
  BaseCollection.__getitem__ self i = Ok (Some form).
Proof.
  intros Hi Hform. unfold visible_forms in Hform. fold mask forms in Hform.
  rewrite visible_lookup in Hform by done.
  unfold BaseCollection.__getitem__, BaseCollection.getitem_position.
  rewrite Nat.add_1_r, getitem_loop_spec by (fold forms; lia).
  rewrite drop_0. replace (Z.to_nat (i - -1 - 1)) with (Z.to_nat i) by lia.
  destruct (nth_true mask (Z.to_nat i)) as [j|]; [|done].
  cbn in Hform. cbn [Nat.add]. fold forms. by rewrite Hform.
Qed.

Lemma getitem_out_of_range (i : Z) :
  (0 <= i)%Z ->
  visible_forms self !! Z.to_nat i = None ->
  BaseCollection.__getitem__ self i = Raise IndexError.
Proof.
  intros Hi Hnone. unfold visible_forms in Hnone. fold mask forms in Hnone.
  rewrite visible_lookup in Hnone by done.
  unfold BaseCollection.__getitem__, BaseCollection.getitem_position.
  rewrite Nat.add_1_r, getitem_loop_spec by (fold forms; lia).
  rewrite drop_0. replace (Z.to_nat (i - -1 - 1)) with (Z.to_nat i) by lia.
  destruct (nth_true mask (Z.to_nat i)) as [j|] eqn:Hj; [|done].
  cbn in Hnone. apply nth_true_lt in Hj.
  apply lookup_ge_None_1 in Hnone. lia.
Qed.

Lemma getitem_position_spec (i : Z) :
  (0 <= i)%Z ->
  BaseCollection.getitem_position self i
  = match nth_true mask (Z.to_nat i) with
    | Some j => Ok (Some j)
    | None => Raise IndexError
    end.
Proof.
  intros Hi. unfold BaseCollection.getitem_position.
  rewrite Nat.add_1_r, getitem_loop_spec by (fold forms; lia).
  rewrite drop_0. replace (Z.to_nat (i - -1 - 1)) with (Z.to_nat i) by lia.
  by destruct (nth_true mask (Z.to_nat i)).
Qed.

End Indexing.

(** C6. Indexing a collection goes over the visible forms: when the mask
    has an entry for every form, [__len__] is the number of forms whose
    mask entry is true, [collection[i]] for [0 <= i < len] is the [i]-th of
    those forms in list order, and an index from [len] on is out of range. *)
Theorem getitem_visible (self : BaseCollection.t) (i : Z) :
  length (BaseCollection.__form_existence self) = length (BaseCollection.forms self) ->
  BaseCollection.__len__ self = length (visible_forms self)
  ∧ ((0 <= i < Z.of_nat (BaseCollection.__len__ self))%Z ->
     ∃ form, visible_forms self !! Z.to_nat i = Some form
             ∧ BaseCollection.__getitem__ self i = Ok (Some form))
  ∧ ((Z.of_nat (BaseCollection.__len__ self) <= i)%Z ->
     BaseCollection.__getitem__ self i = Raise IndexError).
Proof.
  intros Hlen.
  assert (BaseCollection.__len__ self = length (visible_forms self)) as Hcount.
  { unfold BaseCollection.__len__, visible_forms. by rewrite visible_length. }
  split; [done|]. rewrite Hcount. split.
  - intros Hi.
    destruct (lookup_lt_is_Some_2 (visible_forms self) (Z.to_nat i)) as [form Hform];
      [lia|].
    exists form. split; [done|]. apply getitem_in_range; [done|lia|done].
  - intros Hi. apply getitem_out_of_range; [done|lia|].
    apply lookup_ge_None_2. lia.
Qed.

(** With the [s1]-only mask on forms tagged [s1; s1; s2], [collection[0]]
    and [collection[1]] are the two [s1] forms and [collection[2]] is out
    of range. *)
Lemma getitem_visible_s1 :
  BaseCollection.__len__ three_forms_s1 = 2
  ∧ BaseCollection.__getitem__ three_forms_s1 0 = Ok (Some (blank_form "personal" "s1"))
  ∧ BaseCollection.__getitem__ three_forms_s1 1 = Ok (Some (blank_form "address" "s1"))
  ∧ BaseCollection.__getitem__ three_forms_s1 2 = Raise IndexError.
Proof.
  split; [reflexivity|].
  split.
  { destruct (getitem_visible three_forms_s1 0 eq_refl) as (_ & Hin & _).
    destruct Hin as (form & Hform & Hget); [by vm_compute|].
    vm_compute in Hform. injection Hform as <-. exact Hget. }
  split.
  { destruct (getitem_visible three_forms_s1 1 eq_refl) as (_ & Hin & _).
    destruct Hin as (form & Hform & Hget); [by vm_compute|].
    vm_compute in Hform. injection Hform as <-. exact Hget. }
  destruct (getitem_visible three_forms_s1 2 eq_refl) as (_ & _ & Hout).
  apply Hout. by vm_compute.
Defined.

(** ** Collections: validation *)

Lemma true_positions_lookup (mask : list bool) offset r :
  true_positions mask offset !! r = (fun j => offset + j) <$> nth_true mask r.
Proof.
  revert offset r. induction mask as [|b mask IH]; intros offset r; [done|].
  destruct b; cbn [true_positions nth_true].
  - destruct r as [|r]; cbn; [by rewrite Nat.add_0_r|].
    rewrite IH. destruct (nth_true mask r); cbn; [|done]. f_equal. lia.
  - rewrite IH. destruct (nth_true mask r); cbn; [|done]. f_equal. lia.
Qed.

(** The loop of [is_valid] never runs out of the items it is given: it
    visits the visible forms in order and returns at the first one that is
    not valid, or after the last. *)
Lemma is_valid_from_visits `{!Settings} fuel r (self : BaseCollection.t) :
  length (BaseCollection.__form_existence self) = length (BaseCollection.forms self) ->
  length (true_positions (BaseCollection.__form_existence self) 0) - r < fuel ->
  BaseCollection.is_valid_from fuel (Z.of_nat r) self
  = Some (validate_until_failure
            (drop r (true_positions (BaseCollection.__form_existence self) 0)) self).
Proof.
  revert r self. induction fuel as [|fuel IH]; intros r self Hlen Hfuel; [lia|].
  cbn [BaseCollection.is_valid_from].
  rewrite (getitem_position_spec self Hlen) by lia. rewrite Nat2Z.id.
  pose proof (true_positions_lookup (BaseCollection.__form_existence self) 0 r) as Hpos.
  destruct (nth_true (BaseCollection.__form_existence self) r) as [pos|] eqn:Hnth.
  - cbn in Hpos. rewrite (drop_S _ _ _ Hpos). cbn [validate_until_failure].
    destruct (BaseCollection.forms self !! pos) as [form|]; [|done].
    destruct (BaseDataForm.is_valid form) as [valid form'].
    destruct valid; cbn [negb]; [|done].
    replace (Z.of_nat r + 1)%Z with (Z.of_nat (S r)) by lia.
    rewrite IH.
    + done.
    + cbn. by rewrite length_insert.
    + cbn. apply lookup_lt_Some in Hpos. lia.
  - cbn in Hpos. apply lookup_ge_None_1 in Hpos. by rewrite drop_ge.
Qed.

Lemma true_positions_length (mask : list bool) offset :
  length (true_positions mask offset) ≤ length mask.
Proof.
  revert offset. induction mask as [|b mask IH]; intros offset; [done|].
  destruct b; cbn; specialize (IH (S offset)); lia.
Qed.

Lemma is_valid_visits `{!Settings} (self : BaseCollection.t) :
  length (BaseCollection.__form_existence self) = length (BaseCollection.forms self) ->
  BaseCollection.is_valid self
  = Some (validate_until_failure
            (true_positions (BaseCollection.__form_existence self) 0) self).
Proof.
  intros Hlen. unfold BaseCollection.is_valid.
  rewrite (is_valid_from_visits _ 0) by
    (pose proof (true_positions_length (BaseCollection.__form_existence self) 0); lia).
  by rewrite drop_0.
Qed.

(** When the first visible form is not valid, [is_valid] returns false
    with that form validated and every other form, visible or not, as it
    was. *)
Lemma is_valid_first_failure `{!Settings} (self : BaseCollection.t) pos rest form :
  length (BaseCollection.__form_existence self) = length (BaseCollection.forms self) ->
  true_positions (BaseCollection.__form_existence self) 0 = pos :: rest ->
  BaseCollection.forms self !! pos = Some form ->
  (BaseDataForm.is_valid form).1 = false ->
  BaseCollection.is_valid self
  = Some (Ok false,
          BaseCollection.set_forms
            (<[pos := (BaseDataForm.is_valid form).2]> (BaseCollection.forms self)) self).
Proof.
  intros Hlen Hpositions Hform Hvalid.
  rewrite is_valid_visits, Hpositions by done. cbn [validate_until_failure].
  rewrite Hform. destruct (BaseDataForm.is_valid form) as [valid form'].
  cbn in Hvalid. by subst valid.
Qed.

(** C3. Validation of a collection stops at the first form that fails.
    Of three visible forms that are all invalid, only the first is
    validated: [is_valid] returns false with the first form's messages
    filled in, and the second and third forms still have no errors
    computed, although each of them is invalid on its own. *)
Theorem collection_is_valid_stops_at_first_failure :
  let outcome := @BaseCollection.is_valid hyphen_settings three_forms_all in
  BaseCollection.__len__ three_forms_all = 3
  ∧ fst <$> outcome = Some (Ok false)
  ∧ (fun after => BaseDataForm._errors <$> BaseCollection.forms after.2) <$> outcome
    = Some [Some [("personal--name", "This field is required.")]; None; None]
  ∧ (@BaseDataForm.is_valid hyphen_settings (blank_form "address" "s1")).1 = false
  ∧ (@BaseDataForm.is_valid hyphen_settings (blank_form "consent" "s2")).1 = false.
Proof. repeat split; reflexivity. Qed.

(** ** Bindings *)

Section BindingFacts.
Context `{!Settings}.

Lemma binding_entry_raise form binding e :
  binding_entry form binding = Raise e ->
  e = FieldError
  ∧ Binding_parent_field binding = None
  ∧ Binding_parent_choice binding = None.
Proof.
  unfold binding_entry.
  destruct (Binding_parent_field binding); [done|].
  destruct (Binding_parent_choice binding); [done|].
  by intros [= <-].
Qed.

(** The loop appends one entry per binding, in order. *)
Lemma bindings_loop_ok form bindings acc data :
  bindings_loop form bindings acc = Ok data ->
  ∃ entries,
    data = acc ++ entries
    ∧ Forall2 (fun binding entry => binding_entry form binding = Ok entry)
        bindings entries.
Proof.
  revert acc. induction bindings as [|binding bindings IH]; intros acc; cbn.
  - intros [= <-]. exists []. by rewrite app_nil_r.
  - destruct (binding_entry form binding) as [entry|e] eqn:Hentry; [|done].
    intros (entries & -> & Hall)%IH.
    exists (entry :: entries). rewrite <- app_assoc. split; [done|].
    by constructor.
Qed.

Lemma bindings_loop_raise form bindings acc binding :
  binding ∈ bindings ->
  Binding_parent_field binding = None ->
  Binding_parent_choice binding = None ->
  bindings_loop form bindings acc = Raise FieldError.
Proof.
  intros Hin Hfield Hchoice. revert acc.
  induction bindings as [|b bindings IH]; intros acc; [by apply elem_of_nil in Hin|].
  cbn. destruct (binding_entry form b) as [entry|e] eqn:Hentry.
  - apply elem_of_cons in Hin as [->|Hin]; [|by apply IH].
    unfold binding_entry in Hentry. by rewrite Hfield, Hchoice in Hentry.
  - by apply binding_entry_raise in Hentry as [-> _].
Qed.

Lemma bindings_loop_total form bindings acc :
  (∀ binding, binding ∈ bindings ->
     Binding_parent_field binding ≠ None ∨ Binding_parent_choice binding ≠ None) ->
  ∃ data, bindings_loop form bindings acc = Ok data.
Proof.
  revert acc. induction bindings as [|b bindings IH]; intros acc Hall; cbn; [by eexists|].
  destruct (binding_entry form b) as [entry|e] eqn:Hentry.
  - apply IH. intros binding Hin. apply Hall. by right.
  - apply binding_entry_raise in Hentry as (_ & Hfield & Hchoice).
    destruct (Hall b) as [?|?]; [by left|done|done].
Qed.

End BindingFacts.

(** C9. For every binding of a form, [get_bindings] emits the pair of the
    mangled parent field key and the mangled child key when the binding's
    parent field is set; the triple of the mangled key of the parent
    choice's field, the parent choice's value and the mangled child key
    when the parent field is not set and the parent choice is; and it
    raises [FieldError] when a binding has neither.  One entry is emitted
    per binding, in the order of the bindings; the parent field is looked
    at first. *)
Theorem get_bindings_emits `{!Settings} (form : DataForm) (db : Store) :
  let bindings := filter (fun b => Binding_data_form b = form) (Binding_objects db) in
  let key := fun field : Field => _field_for_form (Field_slug field) (DataForm_slug form) in
  ((∃ binding, binding ∈ bindings
      ∧ Binding_parent_field binding = None
      ∧ Binding_parent_choice binding = None) ->
   get_bindings form db = (Raise FieldError, db))
  ∧ ((∀ binding, binding ∈ bindings ->
        Binding_parent_field binding ≠ None ∨ Binding_parent_choice binding ≠ None) ->
     ∃ data,
       get_bindings form db = (Ok data, db)
       ∧ length data = length bindings
       ∧ ∀ i binding, bindings !! i = Some binding ->
           (∀ parent_field, Binding_parent_field binding = Some parent_field ->
              data !! i = Some (FieldBinding (key parent_field)
                                  (key (Binding_child binding))))
           ∧ (∀ parent_choice,
                Binding_parent_field binding = None ->
                Binding_parent_choice binding = Some parent_choice ->
                data !! i = Some (ChoiceBinding
                                    (key (FieldChoice_field parent_choice))
                                    (Choice_value (FieldChoice_choice parent_choice))
                                    (key (Binding_child binding))))).
Proof.
  cbn zeta. unfold get_bindings, bind, get_store, lift. split.
  - intros (binding & Hin & Hfield & Hchoice).
    by rewrite (bindings_loop_raise _ _ _ binding).
  - intros Hall.
    destruct (bindings_loop_total form _ [] Hall) as [data Hdata].
    exists data. rewrite Hdata. split; [done|].
    apply bindings_loop_ok in Hdata as (entries & -> & Hentries).
    rewrite app_nil_l. split; [symmetry; by eapply Forall2_length|].
    intros i binding Hi.
    destruct (Forall2_lookup_l _ _ _ _ _ Hentries Hi) as (entry & Hentry & Hemit).
    rewrite Hentry. unfold binding_entry in Hemit. split.
    + intros parent_field Hfield. rewrite Hfield in Hemit. by simplify_eq.
    + intros parent_choice Hfield Hchoice. rewrite Hfield, Hchoice in Hemit.
      by simplify_eq.
Qed.

(** The three bindings of the sample form: a pair for the binding on a
    parent field, a triple for the binding on a parent choice, and a pair
    for the binding that has both. *)
Lemma get_bindings_emits_survey :
  (∀ binding,
     binding ∈ filter (fun b => Binding_data_form b = survey_form)
                 (Binding_objects survey_bindings) ->
     Binding_parent_field binding ≠ None ∨ Binding_parent_choice binding ≠ None)
  ∧ @get_bindings hyphen_settings survey_form survey_bindings
    = (Ok [ FieldBinding "survey--pets" "survey--pet-kind";
            ChoiceBinding "survey--pet-kind" "dog" "survey--pet-name";
            FieldBinding "survey--pets" "survey--pet-name" ],
       survey_bindings).
Proof.
  assert (∀ binding,
     binding ∈ filter (fun b => Binding_data_form b = survey_form)
                 (Binding_objects survey_bindings) ->
     Binding_parent_field binding ≠ None ∨ Binding_parent_choice binding ≠ None)
    as Hall.
  { intros binding Hin. vm_compute in Hin.
    repeat (apply elem_of_cons in Hin as [->|Hin]; [cbn; by auto|]).
    by apply elem_of_nil in Hin. }
  split; [exact Hall|].
  destruct (proj2 (@get_bindings_emits hyphen_settings survey_form survey_bindings) Hall)
    as (data & Hget & _).
  rewrite Hget. vm_compute in Hget. by injection Hget as <-.
Defined.

(** A binding whose parent choice is set does not always give a triple:
    when its parent field is set as well, the entry is the pair for the
    parent field. *)
Lemma get_bindings_parent_field_first :
  Binding_parent_choice both_parents = Some dog_choice
  ∧ @binding_entry hyphen_settings survey_form both_parents
    = Ok (FieldBinding "survey--pets" "survey--pet-name")
  ∧ (@get_bindings hyphen_settings survey_form survey_bindings).1
    = Ok [ FieldBinding "survey--pets" "survey--pet-kind";
           ChoiceBinding "survey--pet-kind" "dog" "survey--pet-name";
           FieldBinding "survey--pets" "survey--pet-name" ].
Proof. repeat split; reflexivity. Qed.

(** ** Answers of a submission *)

Section AnswerFacts.
Context `{!Settings} `{!Models}.







End AnswerFacts.




(** ** Saving a form *)

Section StoreFacts.

Lemma set_answers_same db : set_answers (Answer_objects db) db = db.
Proof. by destruct db. Qed.

Lemma set_answers_twice l1 l2 db :
  set_answers l2 (set_answers l1 db) = set_answers l2 db.
Proof. done. Qed.

Lemma keeps_answer_with_choices (cs : Answer -> list Choice) :
  keeps_answer (fun b => with_choices (cs b) b).
Proof. done. Qed.

Lemma keeps_answer_with_numbers (ns : Answer -> list atom) :
  keeps_answer (fun b => with_numbers (ns b) b).
Proof. done. Qed.

Lemma keeps_answer_with_texts (ts : Answer -> list string) :
  keeps_answer (fun b => with_texts (ts b) b).
Proof. done. Qed.

Lemma answer_for_keeps change sub field form b :
  keeps_answer change ->
  answer_for sub field form (change b) ↔ answer_for sub field form b.
Proof. intros Hkeep. unfold answer_for. destruct (Hkeep b) as (-> & -> & ->). done. Qed.

Lemma change_if_same_twice a first second b :
  keeps_answer first ->
  change_if_same a second (change_if_same a first b)
  = change_if_same a (fun b => second (first b)) b.
Proof.
  intros Hkeep. unfold change_if_same.
  destruct (decide (same_answer a b)) as [Hsame|Hother].
  - rewrite decide_True; [done|]. by apply answer_for_keeps.
  - by rewrite decide_False.
Qed.

Lemma change_if_same_fmap_twice a first second (l : list Answer) :
  keeps_answer first ->
  change_if_same a second <$> (change_if_same a first <$> l)
  = change_if_same a (fun b => second (first b)) <$> l.
Proof.
  intros Hkeep. rewrite <- list_fmap_compose. apply list_fmap_ext.
  intros i b _. by apply change_if_same_twice.
Qed.

Lemma change_if_same_ext a first second (l : list Answer) :
  (∀ b, b ∈ l -> same_answer a b -> first b = second b) ->
  change_if_same a first <$> l = change_if_same a second <$> l.
Proof.
  intros Hext. apply list_fmap_ext. intros i b Hb. unfold change_if_same.
  destruct (decide (same_answer a b)); [|done].
  apply Hext; [|done]. by eapply list_elem_of_lookup_2.
Qed.

Lemma change_if_same_id a change (l : list Answer) :
  (∀ b, b ∈ l -> same_answer a b -> change b = b) ->
  change_if_same a change <$> l = l.
Proof.
  intros Hid. rewrite <- (list_fmap_id l) at 2. apply list_fmap_ext.
  intros i b Hb. unfold change_if_same.
  destruct (decide (same_answer a b)); [|done].
  apply Hid; [|done]. by eapply list_elem_of_lookup_2.
Qed.

Lemma answer_for_change_if_same a change sub field form b :
  keeps_answer change ->
  answer_for sub field form (change_if_same a change b) ↔ answer_for sub field form b.
Proof.
  intros Hkeep. unfold change_if_same. case_decide; [|done].
  by apply answer_for_keeps.
Qed.

Lemma change_if_same_here a change sub field form b :
  answer_for sub field form a -> answer_for sub field form b ->
  change_if_same a change b = change b.
Proof.
  intros (Has & Haf & Had) (Hbs & Hbf & Hbd). unfold change_if_same.
  rewrite decide_True; [done|]. unfold same_answer, answer_for. by rewrite Has, Haf, Had.
Qed.

Lemma change_if_same_elsewhere a change sub field form b :
  ¬ answer_for sub field form a -> answer_for sub field form b ->
  change_if_same a change b = b.
Proof.
  intros Ha (Hbs & Hbf & Hbd). unfold change_if_same.
  rewrite decide_False; [done|]. intros (Hs & Hf & Hd). apply Ha.
  unfold answer_for. by rewrite <- Hbs, <- Hbf, <- Hbd.
Qed.

(** The rows of one answer after a change to the rows of [a] . *)
Lemma filter_change_if_same a change sub field form (l : list Answer) :
  keeps_answer change ->
  filter (answer_for sub field form) (change_if_same a change <$> l)
  = if decide (answer_for sub field form a)
    then change <$> filter (answer_for sub field form) l
    else filter (answer_for sub field form) l.
Proof.
  intros Hkeep. induction l as [|b l IH]; [by case_decide|].
  rewrite fmap_cons, !filter_cons, IH.
  destruct (decide (answer_for sub field form b)) as [Hb|Hb].
  - rewrite decide_True by (by apply answer_for_change_if_same).
    destruct (decide (answer_for sub field form a)) as [Ha|Ha].
    + by rewrite (change_if_same_here _ _ _ _ _ _ Ha Hb).
    + by rewrite (change_if_same_elsewhere _ _ _ _ _ _ Ha Hb).
  - rewrite decide_False by (by rewrite answer_for_change_if_same).
    done.
Qed.

End StoreFacts.

Section SaveFacts.
Context `{!Settings} `{!Models}.

Lemma for_each_create_choice a cs db :
  for_each cs (create_answer_choice a) db
  = (Ok tt,
     set_answers
       (change_if_same a (fun b => with_choices (answerchoice_set b ++ cs) b)
          <$> Answer_objects db) db).
Proof.
  revert db. induction cs as [|c cs IH]; intros db.
  - cbn. rewrite change_if_same_id, set_answers_same; [done|].
    intros [] _ _. unfold with_choices; cbn. by rewrite app_nil_r.
  - cbn [for_each]. unfold bind at 1. unfold create_answer_choice at 1.
    unfold update_answer, bind, get_store, put_answers. rewrite IH.
    cbn [Answer_objects set_answers]. rewrite set_answers_twice.
    rewrite change_if_same_fmap_twice by done.
    do 2 f_equal. apply change_if_same_ext. intros b _ _.
    unfold with_choices; cbn. by rewrite <- app_assoc.
Qed.

Lemma for_each_create_number a ns db :
  for_each ns (create_answer_number a) db
  = (Ok tt,
     set_answers
       (change_if_same a (fun b => with_numbers (answernumber_set b ++ ns) b)
          <$> Answer_objects db) db).
Proof.
  revert db. induction ns as [|n ns IH]; intros db.
  - cbn. rewrite change_if_same_id, set_answers_same; [done|].
    intros [] _ _. unfold with_numbers; cbn. by rewrite app_nil_r.
  - cbn [for_each]. unfold bind at 1. unfold create_answer_number at 1.
    unfold update_answer, bind, get_store, put_answers. rewrite IH.
    cbn [Answer_objects set_answers]. rewrite set_answers_twice.
    rewrite change_if_same_fmap_twice by done.
    do 2 f_equal. apply change_if_same_ext. intros b _ _.
    unfold with_numbers; cbn. by rewrite <- app_assoc.
Qed.

Lemma get_or_create_run sub field form db :
  Answer_objects_get_or_create sub field form db
  = match answers_for db sub field form with
    | [] =>
        (Ok (new_answer sub field form, true),
         set_answers (Answer_objects db ++ [new_answer sub field form]) db)
    | [a] => (Ok (a, false), db)
    | _ :: _ :: _ => (Raise MultipleObjectsReturned, db)
    end.
Proof.
  unfold Answer_objects_get_or_create, answers_for, bind, get_store.
  by destruct (filter _ _) as [|? [|? ?]].
Qed.

Lemma answers_for_new sub field form db :
  answers_for db sub field form = [] ->
  answers_for (set_answers (Answer_objects db ++ [new_answer sub field form]) db)
    sub field form
  = [new_answer sub field form].
Proof.
  unfold answers_for. cbn [Answer_objects set_answers]. intros Hnone.
  rewrite filter_app, Hnone, filter_cons, decide_True by done. done.
Qed.

Lemma answers_for_new_other sub field form db s f d :
  ¬ (s = sub ∧ f = field ∧ d = form) ->
  answers_for (set_answers (Answer_objects db ++ [new_answer sub field form]) db) s f d
  = answers_for db s f d.
Proof.
  unfold answers_for. cbn [Answer_objects set_answers]. intros Hother.
  rewrite filter_app, filter_cons, decide_False, filter_nil, app_nil_r; [done|].
  intros (Hs & Hf & Hd). apply Hother. cbn in *. done.
Qed.

Lemma only_touches_refl sub field form db : only_touches sub field form db db.
Proof. by repeat split. Qed.

Lemma only_touches_trans sub field form db1 db2 db3 :
  only_touches sub field form db1 db2 ->
  only_touches sub field form db2 db3 ->
  only_touches sub field form db1 db3.
Proof.
  intros (? & ? & ? & ? & ? & H12) (? & ? & ? & ? & ? & H23).
  repeat split; try congruence. intros s f d Hother. by rewrite H23, H12.
Qed.

Lemma only_touches_change a change sub field form db :
  keeps_answer change ->
  answer_for sub field form a ->
  only_touches sub field form db
    (set_answers (change_if_same a change <$> Answer_objects db) db).
Proof.
  intros Hkeep (Hs & Hf & Hd). repeat split; try done.
  intros s f d Hother. unfold answers_for. cbn [Answer_objects set_answers].
  rewrite filter_change_if_same by done. rewrite decide_False; [done|].
  intros (Hs' & Hf' & Hd'). apply Hother. by rewrite <- Hs, <- Hf, <- Hd.
Qed.

Lemma only_touches_new sub field form db :
  only_touches sub field form db
    (set_answers (Answer_objects db ++ [new_answer sub field form]) db).
Proof.
  repeat split; try done. intros s f d Hother. by apply answers_for_new_other.
Qed.

Lemma cleaned_set_cleaned self key v0 v :
  BaseDataForm.cleaned self key = Ok v0 ->
  BaseDataForm.cleaned (BaseDataForm.set_cleaned key v self) key = Ok v.
Proof.
  unfold BaseDataForm.cleaned, BaseDataForm.set_cleaned.
  destruct (BaseDataForm.cleaned_data self) as [d|]; [|done]. intros _.
  cbn. by rewrite lookup_insert_eq.
Qed.

Lemma cleaned_set_cleaned_ne self key v k :
  k ≠ key ->
  BaseDataForm.cleaned (BaseDataForm.set_cleaned key v self) k
  = BaseDataForm.cleaned self k.
Proof.
  intros Hne. unfold BaseDataForm.cleaned, BaseDataForm.set_cleaned.
  destruct (BaseDataForm.cleaned_data self) as [d|] eqn:Hd; cbn.
  - by rewrite lookup_insert_ne.
  - by rewrite Hd.
Qed.

(** What the choice branch has done when it returns. *)
Lemma store_value_choice_ok self key field a was_created db self' db' :
  tag_in (Field_field_type field) CHOICE_FIELDS = true ->
  BaseDataForm.store_value self key field a was_created db = (Ok self', db') ->
  ∃ values,
    BaseDataForm.cleaned self' key = Ok (PList values)
    ∧ db' = set_answers
              (change_if_same a (with_choices (choices_with_value_in db values))
                 <$> Answer_objects db) db
    ∧ (self' = self
       ∨ ∃ s, BaseDataForm.cleaned self key = Ok (PAtom (AStr s))
              ∧ self' = BaseDataForm.set_cleaned key (PList [AStr s]) self).
Proof.
  intros Htag. unfold BaseDataForm.store_value. rewrite Htag.
  unfold bind at 1. unfold delete_answer_choices, update_answer.
  unfold bind at 1. unfold get_store, put_answers.
  unfold bind at 1. unfold lift at 1.
  destruct (BaseDataForm.cleaned self key) as [v|e] eqn:Hv; [|done].
  assert (∀ form values,
    BaseDataForm.cleaned form key = Ok (PList values) ->
    (do v' <- lift (BaseDataForm.cleaned form key);
     do values <- lift (py_iter v');
     do choices <- BaseDataForm.Choice_objects_filter_value_in values;
     do _ <- for_each choices (create_answer_choice a);
     ret form)
      (set_answers (change_if_same a (with_choices []) <$> Answer_objects db) db)
    = (Ok form,
       set_answers
         (change_if_same a (with_choices (choices_with_value_in db values))
            <$> Answer_objects db) db)) as Hrun.
  { intros form values Hform. unfold bind at 1. unfold lift at 1. rewrite Hform.
    unfold bind at 1. unfold lift at 1. cbn [py_iter].
    unfold bind at 1. unfold BaseDataForm.Choice_objects_filter_value_in.
    unfold bind at 1. unfold get_store, ret.
    unfold bind. rewrite for_each_create_choice.
    cbn [Answer_objects set_answers Choice_objects]. rewrite set_answers_twice.
    rewrite change_if_same_fmap_twice by done. done. }
  destruct v as [[| |s|]|values].
  - rewrite Hv. unfold bind, lift. cbn. done.
  - rewrite Hv. unfold bind, lift. cbn. done.
  - rewrite (Hrun _ [AStr s]) by (by eapply cleaned_set_cleaned).
    intros [= <- <-]. exists [AStr s]. split; [by eapply cleaned_set_cleaned|].
    split; [done|]. right. by exists s.
  - rewrite Hv. unfold bind, lift. cbn. done.
  - rewrite (Hrun _ values) by done.
    intros [= <- <-]. exists values. by repeat split; [|left].
Qed.

(** What the single-number branch has done when it returns. *)
Lemma store_value_single_ok self key field a was_created db self' db' :
  tag_in (Field_field_type field) CHOICE_FIELDS = false ->
  tag_in (Field_field_type field) SINGLE_NUMBER_FIELDS = true ->
  BaseDataForm.store_value self key field a was_created db = (Ok self', db') ->
  ∃ v number,
    BaseDataForm.cleaned self key = Ok v
    ∧ py_len v = Ok 1
    ∧ py_first v = Ok number
    ∧ self' = self
    ∧ db' = set_answers
              (change_if_same a (with_numbers [number]) <$> Answer_objects db) db.
Proof.
  intros Hchoice Hsingle. unfold BaseDataForm.store_value. rewrite Hchoice, Hsingle.
  unfold bind at 1. unfold lift at 1.
  destruct (BaseDataForm.cleaned self key) as [v|e] eqn:Hv; [|done].
  unfold bind at 1. unfold lift at 1.
  destruct (py_len v) as [n|e] eqn:Hlen; [|done].
  destruct (Nat.eqb_spec n 1) as [->|Hne]; cbn [negb]; [|done].
  unfold bind at 1. unfold delete_answer_numbers, update_answer.
  unfold bind at 1. unfold get_store, put_answers.
  unfold bind at 1. unfold lift at 1.
  destruct (py_first v) as [number|e] eqn:Hfirst; [|done].
  unfold bind, create_answer_number, update_answer, bind, get_store, put_answers, ret.
  cbn [Answer_objects set_answers]. rewrite set_answers_twice.
  rewrite change_if_same_fmap_twice by done.
  intros [= <- <-]. by exists v, number.
Qed.

(** The assertion of the single-number branch: a cleaned value whose
    length is not 1 raises before anything is deleted. *)
Lemma store_value_single_assert self key field a was_created db v n :
  tag_in (Field_field_type field) CHOICE_FIELDS = false ->
  tag_in (Field_field_type field) SINGLE_NUMBER_FIELDS = true ->
  BaseDataForm.cleaned self key = Ok v ->
  py_len v = Ok n ->
  n ≠ 1 ->
  BaseDataForm.store_value self key field a was_created db = (Raise AssertionError, db).
Proof.
  intros Hchoice Hsingle Hv Hlen Hne.
  unfold BaseDataForm.store_value. rewrite Hchoice, Hsingle.
  unfold bind, lift. rewrite Hv, Hlen.
  by destruct (Nat.eqb_spec n 1).
Qed.

(** What the multi-number branch has done when it returns. *)
Lemma store_value_multi_ok self key field a was_created db self' db' :
  tag_in (Field_field_type field) CHOICE_FIELDS = false ->
  tag_in (Field_field_type field) SINGLE_NUMBER_FIELDS = false ->
  tag_in (Field_field_type field) MULTI_NUMBER_FIELDS = true ->
  BaseDataForm.store_value self key field a was_created db = (Ok self', db') ->
  ∃ v numbers,
    BaseDataForm.cleaned self key = Ok v
    ∧ py_iter v = Ok numbers
    ∧ self' = self
    ∧ db' = set_answers
              (change_if_same a (with_numbers numbers) <$> Answer_objects db) db.
Proof.
  intros Hchoice Hsingle Hmulti. unfold BaseDataForm.store_value.
  rewrite Hchoice, Hsingle, Hmulti.
  unfold bind at 1. unfold delete_answer_numbers, update_answer.
  unfold bind at 1. unfold get_store, put_answers.
  unfold bind at 1. unfold lift at 1.
  destruct (BaseDataForm.cleaned self key) as [v|e] eqn:Hv; [|done].
  unfold bind at 1. unfold lift at 1.
  destruct (py_iter v) as [numbers|e] eqn:Hiter; [|done].
  unfold bind, ret. rewrite for_each_create_number.
  cbn [Answer_objects set_answers]. rewrite set_answers_twice.
  rewrite change_if_same_fmap_twice by done.
  intros [= <- <-]. by exists v, numbers.
Qed.

(** What the text branch has done when it returns. *)
Lemma store_value_text_ok self key field a was_created db self' db' :
  tag_in (Field_field_type field) CHOICE_FIELDS = false ->
  tag_in (Field_field_type field) SINGLE_NUMBER_FIELDS = false ->
  tag_in (Field_field_type field) MULTI_NUMBER_FIELDS = false ->
  BaseDataForm.store_value self key field a was_created db = (Ok self', db') ->
  ∃ v,
    BaseDataForm.cleaned self key = Ok v
    ∧ self' = self
    ∧ let content := char_column (text_content v) in
      let rows := mjoin (answertext_set <$> filter (same_answer a) (Answer_objects db)) in
      ((was_created = true ∨ rows = [])
       ∧ db' = set_answers
                 (change_if_same a (fun b => with_texts (answertext_set b ++ [content]) b)
                    <$> Answer_objects db) db)
      ∨ (was_created = false
         ∧ ∃ text, rows = [text]
             ∧ PAtom (AStr text) ≠ text_content v
             ∧ db' = set_answers
                       (change_if_same a (with_texts [content]) <$> Answer_objects db) db)
      ∨ (was_created = false
         ∧ ∃ text, rows = [text]
             ∧ PAtom (AStr text) = text_content v
             ∧ db' = db).
Proof.
  intros Hchoice Hsingle Hmulti. unfold BaseDataForm.store_value.
  rewrite Hchoice, Hsingle, Hmulti.
  unfold bind at 1. unfold lift at 1.
  destruct (BaseDataForm.cleaned self key) as [v|e] eqn:Hv; [|done].
  fold (text_content v). cbn zeta.
  destruct was_created.
  - unfold bind, create_answer_text, update_answer, bind, get_store, put_answers, ret.
    intros [= <- <-]. exists v. split; [done|]. split; [done|]. left. split; [by left|done].
  - unfold bind at 1. unfold answertext_rows at 1. unfold bind at 1.
    unfold get_store, ret.
    destruct (mjoin _) as [|text [|text' rows]] eqn:Hrows.
    + unfold bind, create_answer_text, update_answer, bind, get_store, put_answers.
      intros [= <- <-]. exists v. split; [done|]. split; [done|].
      left. split; [by right|done].
    + case_bool_decide as Hdiffers.
      * unfold bind, save_answer_text, update_answer, bind, get_store, put_answers.
        intros [= <- <-]. exists v. split; [done|]. split; [done|].
        right; left. split; [done|]. by exists text.
      * intros [= <- <-]. exists v. split; [done|]. split; [done|].
        right; right. split; [done|]. exists text. split; [done|].
        split; [|done]. by destruct (decide (PAtom (AStr text) = text_content v)).
    + done.
Qed.

Lemma same_answer_rows a sub field form (l : list Answer) :
  answer_for sub field form a ->
  filter (same_answer a) l = filter (answer_for sub field form) l.
Proof.
  intros (Hs & Hf & Hd). apply list_filter_iff. intros b.
  unfold same_answer. by rewrite Hs, Hf, Hd.
Qed.

Lemma answers_for_change a change sub field form db row :
  keeps_answer change ->
  answer_for sub field form a ->
  answers_for db sub field form = [row] ->
  answers_for (set_answers (change_if_same a change <$> Answer_objects db) db)
    sub field form
  = [change row].
Proof.
  intros Hkeep Ha Hrow. unfold answers_for in *. cbn [Answer_objects set_answers].
  by rewrite filter_change_if_same, decide_True, Hrow.
Qed.

Lemma cleaned_after_other field v :
  tag_in (Field_field_type field) CHOICE_FIELDS = false -> cleaned_after field v = v.
Proof. unfold cleaned_after. by intros ->. Qed.

(** What [store_value] has done when it returns: the form keeps its
    attributes and its other cleaned values, only the rows of the answer
    are touched, and the one row of the answer holds the cleaned value. *)
Lemma store_value_ok self key field a was_created db self' db' sub form row :
  answer_for sub field form a ->
  answers_for db sub field form = [row] ->
  (was_created = true -> answertext_set row = []) ->
  BaseDataForm.store_value self key field a was_created db = (Ok self', db') ->
  same_attributes self self'
  ∧ (∀ k, k ≠ key -> BaseDataForm.cleaned self' k = BaseDataForm.cleaned self k)
  ∧ (∃ v, BaseDataForm.cleaned self key = Ok v
          ∧ BaseDataForm.cleaned self' key = Ok (cleaned_after field v))
  ∧ only_touches sub field form db db'
  ∧ ∃ row', answers_for db' sub field form = [row']
            ∧ values_stored db' self' key field row'.
Proof.
  intros Ha Hrow Hfresh Hrun.
  destruct (tag_in (Field_field_type field) CHOICE_FIELDS) eqn:Hchoice.
  { apply store_value_choice_ok in Hrun as (values & Hvalues & -> & Hself); [|done].
    assert (same_attributes self self'
            ∧ (∀ k, k ≠ key ->
                 BaseDataForm.cleaned self' k = BaseDataForm.cleaned self k)
            ∧ ∃ v, BaseDataForm.cleaned self key = Ok v
                   ∧ BaseDataForm.cleaned self' key = Ok (cleaned_after field v))
      as (Hattr & Hother & Hkey).
    { unfold cleaned_after. rewrite Hchoice.
      destruct Hself as [->|(s & Hs & ->)].
      - split; [done|]. split; [done|]. exists (PList values). by rewrite Hvalues.
      - split.
        { unfold same_attributes, BaseDataForm.set_cleaned.
          by destruct (BaseDataForm.cleaned_data self). }
        split; [intros k Hk; by apply cleaned_set_cleaned_ne|].
        exists (PAtom (AStr s)). split; [done|]. by eapply cleaned_set_cleaned. }
    split; [done|]. split; [done|]. split; [done|].
    split; [by apply only_touches_change|].
    eexists. split; [by apply answers_for_change|].
    unfold values_stored. rewrite Hchoice. by exists values. }
  destruct (tag_in (Field_field_type field) SINGLE_NUMBER_FIELDS) eqn:Hsingle.
  { apply store_value_single_ok in Hrun
      as (v & number & Hv & Hlen & Hfirst & -> & ->); [|done..].
    split; [done|]. split; [done|].
    split; [exists v; by rewrite cleaned_after_other|].
    split; [by apply only_touches_change|].
    eexists. split; [by apply answers_for_change|].
    unfold values_stored. rewrite Hchoice, Hsingle. by exists v, number. }
  destruct (tag_in (Field_field_type field) MULTI_NUMBER_FIELDS) eqn:Hmulti.
  { apply store_value_multi_ok in Hrun
      as (v & numbers & Hv & Hiter & -> & ->); [|done..].
    split; [done|]. split; [done|].
    split; [exists v; by rewrite cleaned_after_other|].
    split; [by apply only_touches_change|].
    eexists. split; [by apply answers_for_change|].
    unfold values_stored. rewrite Hchoice, Hsingle, Hmulti. by exists v, numbers. }
  apply store_value_text_ok in Hrun as (v & Hv & -> & Hcases); [|done..].
  split; [done|]. split; [done|].
  split; [exists v; by rewrite cleaned_after_other|].
  cbn zeta in Hcases. rewrite (same_answer_rows _ _ _ _ _ Ha) in Hcases.
  fold (answers_for db sub field form) in Hcases. rewrite Hrow in Hcases.
  cbn [fmap list_fmap mjoin list_join] in Hcases. rewrite app_nil_r in Hcases.
  destruct Hcases as [[Hnone ->]|[(-> & text & Htext & Hne & ->)|(-> & text & Htext & Heq & ->)]].
  - assert (answertext_set row = []) as Hempty by (by destruct Hnone; auto).
    split; [by apply only_touches_change|].
    eexists. split; [by apply answers_for_change|].
    unfold values_stored. rewrite Hchoice, Hsingle, Hmulti.
    exists v, (char_column (text_content v)). split; [done|].
    split; [cbn; by rewrite Hempty|]. by right.
  - split; [by apply only_touches_change|].
    eexists. split; [by apply answers_for_change|].
    unfold values_stored. rewrite Hchoice, Hsingle, Hmulti.
    exists v, (char_column (text_content v)). split; [done|]. split; [done|]. by right.
  - split; [apply only_touches_refl|].
    exists row. split; [done|].
    unfold values_stored. rewrite Hchoice, Hsingle, Hmulti.
    exists v, text. split; [done|]. split; [done|]. by left.
Qed.

Lemma field_for_db_unpacked key name :
  _field_for_db key false = Ok name -> name = FieldName (db_field_name name).
Proof.
  unfold _field_for_db. destruct (split key FIELD_DELIMITER) as [names|e]; [|done].
  destruct names as [|n0 [|n1 names]]; try done. by intros [= <-].
Qed.

Lemma objects_get_filter {A} (P : A -> Prop) `{!∀ x, Decision (P x)} (l : list A) x :
  objects_get (filter P l) = Ok x -> P x ∧ x ∈ l.
Proof.
  unfold objects_get. destruct (filter P l) as [|y [|z rest]] eqn:Hfilter; try done.
  intros [= <-]. apply (list_elem_of_filter P). rewrite Hfilter. by left.
Qed.

(** What one turn of the loop of [save] has done when it returns. *)
Lemma save_key_ok sub self key db self' db' :
  BaseDataForm.save_key sub self key db = (Ok self', db') ->
  ∃ name field data_form,
    _field_for_db key false = Ok name
    ∧ objects_get (filter (fun f => Field_slug f = db_field_name name) (Field_objects db))
      = Ok field
    ∧ objects_get (filter (fun f => DataForm_slug f = BaseDataForm.slug self)
                     (DataForm_objects db))
      = Ok data_form
    ∧ same_attributes self self'
    ∧ (∀ k, k ≠ key -> BaseDataForm.cleaned self' k = BaseDataForm.cleaned self k)
    ∧ (∃ v, BaseDataForm.cleaned self key = Ok v
            ∧ BaseDataForm.cleaned self' key = Ok (cleaned_after field v))
    ∧ only_touches sub field data_form db db'
    ∧ ∃ row, answers_for db' sub field data_form = [row]
             ∧ values_stored db' self' key field row.
Proof.
  unfold BaseDataForm.save_key.
  unfold bind at 1. unfold lift at 1.
  destruct (_field_for_db key false) as [name|e] eqn:Hname; [|done].
  unfold bind at 1. unfold Field_objects_get at 1. unfold bind at 1.
  unfold get_store at 1. unfold lift at 1.
  destruct (objects_get (filter _ (Field_objects db))) as [field|e] eqn:Hfield; [|done].
  unfold bind at 1. unfold DataForm_objects_get at 1. unfold bind at 1.
  unfold get_store at 1. unfold lift at 1.
  destruct (objects_get (filter _ (DataForm_objects db))) as [data_form|e] eqn:Hform;
    [|done].
  unfold bind at 1. rewrite get_or_create_run.
  destruct (answers_for db sub field data_form) as [|a [|a' rest]] eqn:Hrows; [| |done].
  - intros Hrun.
    eapply (store_value_ok _ _ _ _ _ _ _ _ sub data_form (new_answer sub field data_form))
      in Hrun as (Hattr & Hother & Hkey & Htouch & Hrow); [|done|by apply answers_for_new|done].
    exists name, field, data_form. repeat (split; [done|]).
    split; [|done]. eapply only_touches_trans; [apply only_touches_new|done].
  - intros Hrun.
    assert (answer_for sub field data_form a) as Ha.
    { apply (proj1 (list_elem_of_filter (answer_for sub field data_form)
                      (Answer_objects db) a)).
      fold (answers_for db sub field data_form). rewrite Hrows. by left. }
    eapply (store_value_ok _ _ _ _ _ _ _ _ sub data_form a)
      in Hrun as (Hattr & Hother & Hkey & Htouch & Hrow); [|done..].
    exists name, field, data_form. by repeat (split; [done|]).
Qed.

Lemma values_stored_ext db db' self self' key field answer :
  Choice_objects db' = Choice_objects db ->
  BaseDataForm.cleaned self' key = BaseDataForm.cleaned self key ->
  values_stored db self key field answer ->
  values_stored db' self' key field answer.
Proof.
  unfold values_stored, choices_with_value_in. by intros -> ->.
Qed.

Lemma save_key_stored sub self key db self' db' :
  BaseDataForm.save_key sub self key db = (Ok self', db') ->
  key_stored db' sub self self' key.
Proof.
  intros (name & field & data_form & Hname & Hfield & Hform & Hattr & _
          & (v & Hv & Hv') & Htouch & row & Hrow & Hvalues)%save_key_ok.
  destruct Hattr as (Hslug & _ & _).
  destruct Htouch as (_ & Hfields & Hforms & _ & _ & _).
  exists name, field, data_form, row, v.
  by rewrite Hfields, Hforms, Hslug.
Qed.

(** A turn of the loop for another field leaves what is stored for [key]
    as it is. *)
Lemma save_key_frame sub before self key key' db self' db' :
  BaseDataForm.save_key sub self key' db = (Ok self', db') ->
  _field_for_db key false ≠ _field_for_db key' false ->
  key_stored db sub before self key ->
  key_stored db' sub before self' key.
Proof.
  intros (name' & field' & data_form' & Hname' & Hfield' & Hform' & Hattr & Hother
          & _ & Htouch & _)%save_key_ok Hnames
         (name & field & data_form & answer & v & Hname & Hfield & Hform
          & Hrow & Hv & Hv' & Hvalues).
  assert (key ≠ key') as Hkeys by (intros ->; done).
  assert (field ≠ field') as Hfields.
  { intros ->. apply Hnames. rewrite Hname, Hname'. f_equal.
    rewrite (field_for_db_unpacked _ _ Hname), (field_for_db_unpacked _ _ Hname').
    apply objects_get_filter in Hfield as [Hslug _].
    apply objects_get_filter in Hfield' as [Hslug' _]. congruence. }
  destruct Hattr as (Hslug & _ & _).
  destruct Htouch as (_ & Hfield_table & Hform_table & Hchoice_table & _ & Hanswers).
  exists name, field, data_form, answer, v.
  rewrite Hfield_table, Hform_table, Hslug, Hanswers by (by intros (_ & ? & _)).
  rewrite (Hother key Hkeys).
  repeat (split; [done|]).
  apply (values_stored_ext db db' self self'); [done|by apply Hother|done].
Qed.

(** Rewriting the one row of an answer with what it holds changes
    nothing. *)
Lemma set_answers_unchanged a change sub field form db :
  answer_for sub field form a ->
  answers_for db sub field form = [a] ->
  change a = a ->
  set_answers (change_if_same a change <$> Answer_objects db) db = db.
Proof.
  intros Ha Hrow Hsame. rewrite change_if_same_id; [apply set_answers_same|].
  intros b Hb Hab.
  assert (b ∈ answers_for db sub field form) as Hin.
  { unfold answers_for. rewrite <- (same_answer_rows a) by done.
    by apply list_elem_of_filter. }
  rewrite Hrow in Hin. apply list_elem_of_singleton in Hin as ->. done.
Qed.

(** Storing a value that the answer already holds leaves the form and the
    store as they are. *)
Lemma store_value_again self key field a db sub form :
  answer_for sub field form a ->
  answers_for db sub field form = [a] ->
  values_stored db self key field a ->
  BaseDataForm.store_value self key field a false db = (Ok self, db).
Proof.
  intros Ha Hrow. unfold values_stored, BaseDataForm.store_value.
  destruct (tag_in (Field_field_type field) CHOICE_FIELDS).
  { intros (values & Hv & Hset).
    unfold bind at 1. unfold delete_answer_choices, update_answer.
    unfold bind at 1. unfold get_store, put_answers.
    unfold bind at 1. unfold lift at 1. rewrite Hv.
    unfold bind at 1. unfold lift at 1. rewrite Hv.
    unfold bind at 1. unfold lift at 1. cbn [py_iter].
    unfold bind at 1. unfold BaseDataForm.Choice_objects_filter_value_in.
    unfold bind at 1. unfold get_store, ret.
    unfold bind. rewrite for_each_create_choice.
    cbn [Answer_objects set_answers Choice_objects]. rewrite set_answers_twice.
    rewrite change_if_same_fmap_twice by done.
    f_equal. eapply set_answers_unchanged; [done..|].
    cbn. fold (choices_with_value_in db values). rewrite <- Hset. by destruct a. }
  destruct (tag_in (Field_field_type field) SINGLE_NUMBER_FIELDS).
  { intros (v & number & Hv & Hlen & Hfirst & Hset).
    unfold bind at 1. unfold lift at 1. rewrite Hv.
    unfold bind at 1. unfold lift at 1. rewrite Hlen. cbn [Nat.eqb negb].
    unfold bind at 1. unfold delete_answer_numbers, update_answer.
    unfold bind at 1. unfold get_store, put_answers.
    unfold bind at 1. unfold lift at 1. rewrite Hfirst.
    unfold bind, create_answer_number, update_answer, bind, get_store, put_answers, ret.
    cbn [Answer_objects set_answers]. rewrite set_answers_twice.
    rewrite change_if_same_fmap_twice by done.
    f_equal. eapply set_answers_unchanged; [done..|].
    cbn. rewrite <- Hset. by destruct a. }
  destruct (tag_in (Field_field_type field) MULTI_NUMBER_FIELDS).
  { intros (v & numbers & Hv & Hiter & Hset).
    unfold bind at 1. unfold delete_answer_numbers, update_answer.
    unfold bind at 1. unfold get_store, put_answers.
    unfold bind at 1. unfold lift at 1. rewrite Hv.
    unfold bind at 1. unfold lift at 1. rewrite Hiter.
    unfold bind, ret. rewrite for_each_create_number.
    cbn [Answer_objects set_answers]. rewrite set_answers_twice.
    rewrite change_if_same_fmap_twice by done.
    f_equal. eapply set_answers_unchanged; [done..|].
    cbn. rewrite <- Hset. by destruct a. }
  intros (v & text & Hv & Hset & Htext).
  unfold bind at 1. unfold lift at 1. rewrite Hv.
  fold (text_content v). cbn zeta.
  unfold bind at 1. unfold answertext_rows at 1. unfold bind at 1.
  unfold get_store, ret.
  rewrite (same_answer_rows _ _ _ _ _ Ha).
  fold (answers_for db sub field form). rewrite Hrow.
  cbn [fmap list_fmap mjoin list_join]. rewrite app_nil_r, Hset.
  case_bool_decide as Hdiffers; [|done].
  destruct Htext as [Hsame|Htext]; [done|].
  unfold bind, save_answer_text, update_answer, bind, get_store, put_answers.
  f_equal. eapply set_answers_unchanged; [done..|].
  rewrite <- Htext, <- Hset. by destruct a.
Qed.

Lemma save_key_again sub before self key db :
  key_stored db sub before self key ->
  BaseDataForm.save_key sub self key db = (Ok self, db).
Proof.
  intros (name & field & data_form & answer & v & Hname & Hfield & Hform
          & Hrow & _ & _ & Hvalues).
  unfold BaseDataForm.save_key.
  unfold bind at 1. unfold lift at 1. rewrite Hname.
  unfold bind at 1. unfold Field_objects_get at 1. unfold bind at 1.
  unfold get_store at 1. unfold lift at 1. rewrite Hfield.
  unfold bind at 1. unfold DataForm_objects_get at 1. unfold bind at 1.
  unfold get_store at 1. unfold lift at 1. rewrite Hform.
  unfold bind at 1. rewrite get_or_create_run, Hrow.
  eapply store_value_again; [|done..].
  apply (proj1 (list_elem_of_filter (answer_for sub field data_form)
                  (Answer_objects db) answer)).
  fold (answers_for db sub field data_form). rewrite Hrow. by left.
Qed.

Lemma key_stored_before db sub before before' after key :
  BaseDataForm.cleaned before' key = BaseDataForm.cleaned before key ->
  key_stored db sub before after key ->
  key_stored db sub before' after key.
Proof.
  intros Hsame (name & field & data_form & answer & v & Hstored).
  exists name, field, data_form, answer, v. by rewrite Hsame.
Qed.

Lemma save_keys_cons sub self key keys db :
  BaseDataForm.save_keys sub self (key :: keys) db
  = match BaseDataForm.save_key sub self key db with
    | (Ok self', db') => BaseDataForm.save_keys sub self' keys db'
    | (Raise e, db') => (Raise e, db')
    end.
Proof. done. Qed.

Lemma save_keys_app sub self keys1 keys2 db :
  BaseDataForm.save_keys sub self (keys1 ++ keys2) db
  = match BaseDataForm.save_keys sub self keys1 db with
    | (Ok self', db') => BaseDataForm.save_keys sub self' keys2 db'
    | (Raise e, db') => (Raise e, db')
    end.
Proof.
  revert self db. induction keys1 as [|key keys1 IH]; intros self db; [done|].
  rewrite <- app_comm_cons, !save_keys_cons.
  destruct (BaseDataForm.save_key sub self key db) as [[self'|e] db']; [apply IH|done].
Qed.

(** The loop keeps the attributes of the form and the tables other than
    the answers. *)
Lemma save_keys_attributes sub self keys db self' db' :
  BaseDataForm.save_keys sub self keys db = (Ok self', db') ->
  same_attributes self self'
  ∧ Submission_objects db' = Submission_objects db.
Proof.
  revert self db. induction keys as [|key keys IH]; intros self db.
  { cbn. unfold ret. by intros [= <- <-]. }
  rewrite save_keys_cons.
  destruct (BaseDataForm.save_key sub self key db) as [[self1|e] db1] eqn:Hkey; [|done].
  intros ((Hslug & Hfields & Hsub) & Hsubs)%IH.
  apply save_key_ok in Hkey
    as (_ & field & data_form & _ & _ & _ & (Hslug1 & Hfields1 & Hsub1) & _ & _ & Htouch & _).
  destruct Htouch as (Hsubs1 & _).
  unfold same_attributes. by rewrite Hslug, Hfields, Hsub, Hsubs.
Qed.

Lemma save_keys_frame sub before keys self db self' db' key :
  BaseDataForm.save_keys sub self keys db = (Ok self', db') ->
  (∀ key', key' ∈ keys -> _field_for_db key false ≠ _field_for_db key' false) ->
  key_stored db sub before self key ->
  key_stored db' sub before self' key.
Proof.
  revert self db. induction keys as [|key' keys IH]; intros self db.
  { cbn. unfold ret. by intros [= <- <-]. }
  rewrite save_keys_cons.
  destruct (BaseDataForm.save_key sub self key' db) as [[self1|e] db1] eqn:Hkey; [|done].
  intros Hrest Hnames Hstored.
  eapply IH; [done| |].
  - intros k Hk. apply Hnames. by right.
  - eapply save_key_frame; [done| |done]. apply Hnames. by left.
Qed.

(** After the loop every key of the form is stored, provided the keys
    stand for different fields. *)
Lemma save_keys_stored sub keys self db self' db' :
  NoDup ((fun key => _field_for_db key false) <$> keys) ->
  BaseDataForm.save_keys sub self keys db = (Ok self', db') ->
  ∀ key, key ∈ keys -> key_stored db' sub self self' key.
Proof.
  revert self db. induction keys as [|key keys IH]; intros self db Hnodup.
  { intros _ key Hkey. by apply elem_of_nil in Hkey. }
  rewrite fmap_cons in Hnodup. apply NoDup_cons in Hnodup as [Hfresh Hnodup].
  rewrite save_keys_cons.
  destruct (BaseDataForm.save_key sub self key db) as [[self1|e] db1] eqn:Hkey; [|done].
  intros Hrest k Hk.
  assert (∀ key', key' ∈ keys -> _field_for_db key false ≠ _field_for_db key' false)
    as Hnames.
  { intros key' Hkey' Heq. apply Hfresh. rewrite Heq.
    by apply (list_elem_of_fmap_2 (fun key => _field_for_db key false)). }
  apply elem_of_cons in Hk as [->|Hk].
  - eapply save_keys_frame; [done..|]. by eapply save_key_stored.
  - eapply key_stored_before; [|by eapply IH].
    apply save_key_ok in Hkey
      as (_ & _ & _ & _ & _ & _ & _ & Hother & _).
    symmetry. apply Hother. intros ->. by apply (Hnames key).
Qed.

(** Running the loop on a form and a store in which every key is stored
    changes neither. *)
Lemma save_keys_again sub before keys self db :
  (∀ key, key ∈ keys -> key_stored db sub before self key) ->
  BaseDataForm.save_keys sub self keys db = (Ok self, db).
Proof.
  induction keys as [|key keys IH]; intros Hstored; [done|].
  rewrite save_keys_cons, (save_key_again sub before) by (apply Hstored; by left).
  apply IH. intros k Hk. apply Hstored. by right.
Qed.

(** [save] is the lookup or creation of the submission, then the loop. *)
Lemma save_ok self db out db' :
  BaseDataForm.save self db = (Ok out, db') ->
  ∃ sub self1 db1,
    BaseDataForm.submission self1 = Some sub
    ∧ BaseDataForm.fields self1 = BaseDataForm.fields self
    ∧ (∀ key, BaseDataForm.cleaned self1 key = BaseDataForm.cleaned self key)
    ∧ (BaseDataForm.submission self = None ->
       ∃ sslug,
         BaseDataForm.submission_slug self = Some sslug
         ∧ filter (fun s => Submission_slug s = sslug) (Submission_objects db1) = [sub])
    ∧ BaseDataForm.save_keys sub self1 (BaseDataForm.fields self1).*1 db1 = (Ok out, db').
Proof.
  unfold BaseDataForm.save. unfold bind at 1.
  destruct (BaseDataForm.submission self) as [sub|] eqn:Hsub.
  { unfold ret. intros Hkeys. exists sub, self, db. by repeat split. }
  destruct (BaseDataForm.submission_slug self) as [sslug|] eqn:Hslug; [|done].
  unfold bind at 1. unfold Submission_objects_get_or_create. unfold bind at 1.
  unfold get_store at 1.
  destruct (filter _ (Submission_objects db)) as [|sub [|sub' rest]] eqn:Hrows; [| |done].
  - unfold bind at 1. unfold put_submissions, ret. intros Hkeys.
    eexists _, _, _. split; [|split; [|split; [|split; [|exact Hkeys]]]]; try done.
    intros _. exists sslug. split; [done|].
    cbn [Submission_objects set_submissions].
    by rewrite filter_app, Hrows, filter_cons, decide_True.
  - unfold ret. intros Hkeys.
    eexists _, _, _. split; [|split; [|split; [|split; [|exact Hkeys]]]]; try done.
    intros _. by exists sslug.
Qed.

End SaveFacts.

(** C5. Saving is idempotent.  When the keys of the form stand for
    different fields and [save] returns, a second [save] of the same form
    object returns as well and leaves the form and the whole store exactly
    as the first save left them, so it duplicates nothing; there is exactly
    one answer row for the submission, the field of every key and the
    form, and, when the first save had to look the submission up by its
    slug, exactly one submission row with that slug. *)
Theorem save_twice `{!Settings} `{!Models}
    (self out : BaseDataForm.t) (db db1 : Store) :
  NoDup ((fun key => _field_for_db key false) <$> (BaseDataForm.fields self).*1) ->
  BaseDataForm.save self db = (Ok out, db1) ->
  BaseDataForm.save out db1 = (Ok out, db1)
  ∧ ∃ sub,
      BaseDataForm.submission out = Some sub
      ∧ (BaseDataForm.submission self = None ->
         ∃ sslug,
           BaseDataForm.submission_slug self = Some sslug
           ∧ filter (fun s => Submission_slug s = sslug) (Submission_objects db1) = [sub])
      ∧ ∀ key, key ∈ (BaseDataForm.fields self).*1 ->
          ∃ name field data_form answer,
            _field_for_db key false = Ok name
            ∧ objects_get (filter (fun f => Field_slug f = db_field_name name)
                             (Field_objects db1)) = Ok field
            ∧ objects_get (filter (fun f => DataForm_slug f = BaseDataForm.slug out)
                             (DataForm_objects db1)) = Ok data_form
            ∧ answers_for db1 sub field data_form = [answer].
Proof.
  intros Hnodup (sub & self1 & db0 & Hsub & Hfields & _ & Hsubs & Hkeys)%save_ok.
  rewrite Hfields in Hkeys.
  pose proof (save_keys_stored _ _ _ _ _ _ Hnodup Hkeys) as Hstored.
  apply save_keys_attributes in Hkeys as ((_ & Hfields' & Hsub') & Hsubs').
  rewrite Hsub in Hsub'. rewrite Hfields in Hfields'.
  split.
  - unfold BaseDataForm.save. unfold bind at 1. rewrite Hsub'. unfold ret.
    rewrite Hfields'. by apply (save_keys_again sub self1).
  - exists sub. split; [done|]. split.
    + intros Hnone. destruct (Hsubs Hnone) as (sslug & Hslug & Hrows).
      exists sslug. by rewrite Hsubs'.
    + intros key Hkey.
      destruct (Hstored key Hkey)
        as (name & field & data_form & answer & _ & Hname & Hfield & Hform & Hrow & _).
      by exists name, field, data_form, answer.
Qed.

(** Saving the sample form a second time changes nothing. *)
Lemma save_twice_survey :
  @BaseDataForm.save hyphen_settings (models_reporting [])
    first_answers_saved survey_saved_once
  = (Ok first_answers_saved, survey_saved_once)
  ∧ length (Answer_objects survey_saved_once) = 4
  ∧ Submission_objects survey_saved_once = [visit_one].
Proof.
  split; [|split; reflexivity].
  apply (@save_twice hyphen_settings (models_reporting [])
           first_answers first_answers_saved survey_store survey_saved_once).
  - by apply (bool_decide_unpack _).
  - reflexivity.
Defined.

(** C1. A save replaces the stored values of every choice-type and
    multi-number field.  Whatever the store held before, for example what
    an earlier save left there, when [save] returns on a form whose keys
    stand for different fields there is exactly one answer row for each
    key, and for a choice-type field its choices are exactly the choices
    whose value is among the cleaned selections (a bare string counting as
    one selection), for a multi-number field its numbers are exactly the
    elements of the cleaned value: nothing of what was stored before is
    left. *)
Theorem save_replaces_values `{!Settings} `{!Models}
    (self out : BaseDataForm.t) (db db' : Store) (key : string) :
  NoDup ((fun key => _field_for_db key false) <$> (BaseDataForm.fields self).*1) ->
  BaseDataForm.save self db = (Ok out, db') ->
  key ∈ (BaseDataForm.fields self).*1 ->
  ∃ sub name field data_form answer v,
    BaseDataForm.submission out = Some sub
    ∧ _field_for_db key false = Ok name
    ∧ objects_get (filter (fun f => Field_slug f = db_field_name name)
                     (Field_objects db')) = Ok field
    ∧ objects_get (filter (fun f => DataForm_slug f = BaseDataForm.slug out)
                     (DataForm_objects db')) = Ok data_form
    ∧ answers_for db' sub field data_form = [answer]
    ∧ BaseDataForm.cleaned self key = Ok v
    ∧ (tag_in (Field_field_type field) CHOICE_FIELDS = true ->
       ∃ values,
         wrapped v = PList values
         ∧ answerchoice_set answer = choices_with_value_in db' values)
    ∧ (tag_in (Field_field_type field) CHOICE_FIELDS = false ->
       tag_in (Field_field_type field) SINGLE_NUMBER_FIELDS = false ->
       tag_in (Field_field_type field) MULTI_NUMBER_FIELDS = true ->
       py_iter v = Ok (answernumber_set answer)).
Proof.
  intros Hnodup (sub & self1 & db0 & Hsub & Hfields & Hcleaned & _ & Hkeys)%save_ok Hkey.
  rewrite Hfields in Hkeys.
  destruct (save_keys_stored _ _ _ _ _ _ Hnodup Hkeys key Hkey)
    as (name & field & data_form & answer & v & Hname & Hfield & Hform & Hrow
        & Hv & Hv' & Hvalues).
  apply save_keys_attributes in Hkeys as ((_ & _ & Hsub') & _).
  rewrite Hcleaned in Hv.
  exists sub, name, field, data_form, answer, v.
  split; [by rewrite Hsub'|]. repeat (split; [done|]).
  unfold values_stored in Hvalues. unfold cleaned_after in Hv'. split.
  - intros Hchoice. rewrite Hchoice in Hvalues, Hv'.
    destruct Hvalues as (values & Hlist & Hset).
    exists values. split; [congruence|done].
  - intros Hchoice Hsingle Hmulti. rewrite Hchoice in Hv'.
    rewrite Hchoice, Hsingle, Hmulti in Hvalues.
    destruct Hvalues as (v' & numbers & Hv'' & Hiter & Hset).
    rewrite Hset. congruence.
Qed.

(** After selections [a], [b] and numbers 1, 2, 3 have been saved, a save
    with the selection [c] and the number 5 leaves exactly one stored
    choice, [c], and exactly one stored number, 5. *)
Lemma save_replaces_values_survey :
  (answerchoice_set <$> answers_for survey_saved_once visit_one colours_field survey_form
   = [[choice_a; choice_b]]
   ∧ answernumber_set <$> answers_for survey_saved_once visit_one sizes_field survey_form
     = [[AInt 1; AInt 2; AInt 3]])
  ∧ answerchoice_set <$> answers_for survey_saved_twice visit_one colours_field survey_form
    = [[choice_c]]
  ∧ answernumber_set <$> answers_for survey_saved_twice visit_one sizes_field survey_form
    = [[AInt 5]].
Proof.
  split; [split; reflexivity|].
  assert (NoDup ((fun key => @_field_for_db hyphen_settings key false)
                   <$> (BaseDataForm.fields second_answers).*1)) as Hnodup
    by (by apply (bool_decide_unpack _)).
  assert (@BaseDataForm.save hyphen_settings (models_reporting [])
            second_answers survey_saved_once
          = (Ok second_answers_saved, survey_saved_twice)) as Hsave by reflexivity.
  split.
  - destruct (@save_replaces_values hyphen_settings (models_reporting [])
                second_answers second_answers_saved survey_saved_once
                survey_saved_twice "survey--colours" Hnodup Hsave)
      as (sub & name & field & data_form & answer & v & Hsub & Hname & Hfield
          & Hform & Hrow & Hv & Hchoice & _).
    { by apply (bool_decide_unpack _). }
    vm_compute in Hsub. injection Hsub as <-.
    vm_compute in Hname. injection Hname as <-.
    vm_compute in Hfield. injection Hfield as <-.
    vm_compute in Hform. injection Hform as <-.
    vm_compute in Hv. injection Hv as <-.
    destruct (Hchoice eq_refl) as (values & Hvalues & Hset).
    cbn in Hvalues. injection Hvalues as <-.
    fold visit_one colours_field survey_form in Hrow.
    rewrite Hrow. cbn [fmap list_fmap]. rewrite Hset. reflexivity.
  - destruct (@save_replaces_values hyphen_settings (models_reporting [])
                second_answers second_answers_saved survey_saved_once
                survey_saved_twice "survey--sizes" Hnodup Hsave)
      as (sub & name & field & data_form & answer & v & Hsub & Hname & Hfield
          & Hform & Hrow & Hv & _ & Hmulti).
    { by apply (bool_decide_unpack _). }
    vm_compute in Hsub. injection Hsub as <-.
    vm_compute in Hname. injection Hname as <-.
    vm_compute in Hfield. injection Hfield as <-.
    vm_compute in Hform. injection Hform as <-.
    vm_compute in Hv. injection Hv as <-.
    specialize (Hmulti eq_refl eq_refl eq_refl). cbn in Hmulti.
    fold visit_one sizes_field survey_form in Hrow.
    rewrite Hrow. cbn [fmap list_fmap]. by injection Hmulti as <-.
Defined.

(** The assertion seen from [save_key]: the answer may have been created,
    but no number row has been deleted or added. *)
Lemma save_key_single_assert `{!Settings} `{!Models}
    sub self key db name field data_form v n :
  _field_for_db key false = Ok name ->
  objects_get (filter (fun f => Field_slug f = db_field_name name) (Field_objects db))
    = Ok field ->
  objects_get (filter (fun f => DataForm_slug f = BaseDataForm.slug self)
                 (DataForm_objects db)) = Ok data_form ->
  length (answers_for db sub field data_form) ≤ 1 ->
  tag_in (Field_field_type field) CHOICE_FIELDS = false ->
  tag_in (Field_field_type field) SINGLE_NUMBER_FIELDS = true ->
  BaseDataForm.cleaned self key = Ok v ->
  py_len v = Ok n ->
  n ≠ 1 ->
  ∃ db',
    BaseDataForm.save_key sub self key db = (Raise AssertionError, db')
    ∧ mjoin (answernumber_set <$> Answer_objects db')
      = mjoin (answernumber_set <$> Answer_objects db).
Proof.
  intros Hname Hfield Hform Hrows Hchoice Hsingle Hv Hlen Hne.
  unfold BaseDataForm.save_key.
  unfold bind at 1. unfold lift at 1. rewrite Hname.
  unfold bind at 1. unfold Field_objects_get at 1. unfold bind at 1.
  unfold get_store at 1. unfold lift at 1. rewrite Hfield.
  unfold bind at 1. unfold DataForm_objects_get at 1. unfold bind at 1.
  unfold get_store at 1. unfold lift at 1. rewrite Hform.
  unfold bind at 1. rewrite get_or_create_run.
  destruct (answers_for db sub field data_form) as [|a [|a' rest]]; [| |cbn in Hrows; lia].
  - eexists. split; [by eapply store_value_single_assert|].
    cbn [Answer_objects set_answers].
    rewrite fmap_app, join_app. cbn. by rewrite app_nil_r.
  - eexists. split; [by eapply store_value_single_assert|done].
Qed.

(** C8. For a single-number field the cleaned value must have exactly one
    element.  If it has not, the turn of the loop for that field raises
    [AssertionError], and so does [save] when the fields before it are
    saved without an exception, with every stored number left as it was.
    If [save] returns, the cleaned value of every single-number field had
    length one, and the answer of the field holds that one element as its
    only number, whatever numbers it held before. *)
Theorem save_single_number `{!Settings} `{!Models} :
  (∀ sub self key db name field data_form v n,
     _field_for_db key false = Ok name ->
     objects_get (filter (fun f => Field_slug f = db_field_name name) (Field_objects db))
       = Ok field ->
     objects_get (filter (fun f => DataForm_slug f = BaseDataForm.slug self)
                    (DataForm_objects db)) = Ok data_form ->
     length (answers_for db sub field data_form) ≤ 1 ->
     tag_in (Field_field_type field) CHOICE_FIELDS = false ->
     tag_in (Field_field_type field) SINGLE_NUMBER_FIELDS = true ->
     BaseDataForm.cleaned self key = Ok v ->
     py_len v = Ok n ->
     n ≠ 1 ->
     (∃ db',
        BaseDataForm.save_key sub self key db = (Raise AssertionError, db')
        ∧ mjoin (answernumber_set <$> Answer_objects db')
          = mjoin (answernumber_set <$> Answer_objects db))
     ∧ ∀ self0 db0 before after,
         BaseDataForm.submission self0 = Some sub ->
         (BaseDataForm.fields self0).*1 = before ++ key :: after ->
         BaseDataForm.save_keys sub self0 before db0 = (Ok self, db) ->
         ∃ db',
           BaseDataForm.save self0 db0 = (Raise AssertionError, db')
           ∧ mjoin (answernumber_set <$> Answer_objects db')
             = mjoin (answernumber_set <$> Answer_objects db))
  ∧ (∀ self out db db' key,
       NoDup ((fun key => _field_for_db key false) <$> (BaseDataForm.fields self).*1) ->
       BaseDataForm.save self db = (Ok out, db') ->
       key ∈ (BaseDataForm.fields self).*1 ->
       ∃ sub name field data_form answer v,
         BaseDataForm.submission out = Some sub
         ∧ _field_for_db key false = Ok name
         ∧ objects_get (filter (fun f => Field_slug f = db_field_name name)
                          (Field_objects db')) = Ok field
         ∧ objects_get (filter (fun f => DataForm_slug f = BaseDataForm.slug out)
                          (DataForm_objects db')) = Ok data_form
         ∧ answers_for db' sub field data_form = [answer]
         ∧ BaseDataForm.cleaned self key = Ok v
         ∧ (tag_in (Field_field_type field) CHOICE_FIELDS = false ->
            tag_in (Field_field_type field) SINGLE_NUMBER_FIELDS = true ->
            ∃ number,
              py_len v = Ok 1
              ∧ py_first v = Ok number
              ∧ (∀ numbers, v = PList numbers -> numbers = [number])
              ∧ answernumber_set answer = [number])).
Proof.
  split.
  - intros sub self key db name field data_form v n
      Hname Hfield Hform Hrows Hchoice Hsingle Hv Hlen Hne.
    destruct (save_key_single_assert sub self key db name field data_form v n)
      as (db' & Hraise & Hnumbers); [done..|].
    split; [by exists db'|].
    intros self0 db0 before after Hsub Hkeys Hbefore.
    exists db'. split; [|done].
    unfold BaseDataForm.save. unfold bind at 1. rewrite Hsub. unfold ret.
    by rewrite Hkeys, save_keys_app, Hbefore, save_keys_cons, Hraise.
  - intros self out db db' key Hnodup
      (sub & self1 & db0 & Hsub & Hfields & Hcleaned & _ & Hkeys)%save_ok Hkey.
    rewrite Hfields in Hkeys.
    destruct (save_keys_stored _ _ _ _ _ _ Hnodup Hkeys key Hkey)
      as (name & field & data_form & answer & v & Hname & Hfield & Hform & Hrow
          & Hv & Hv' & Hvalues).
    apply save_keys_attributes in Hkeys as ((_ & _ & Hsub') & _).
    rewrite Hcleaned in Hv.
    exists sub, name, field, data_form, answer, v.
    split; [by rewrite Hsub'|]. repeat (split; [done|]).
    intros Hchoice Hsingle.
    unfold values_stored in Hvalues. unfold cleaned_after in Hv'.
    rewrite Hchoice in Hv'. rewrite Hchoice, Hsingle in Hvalues.
    destruct Hvalues as (v' & number & Hv'' & Hlen & Hfirst & Hset).
    assert (v' = v) as -> by congruence.
    exists number. repeat (split; [done|]). split; [|done].
    intros numbers ->. cbn in Hlen, Hfirst.
    destruct numbers as [|x [|y rest]]; by simplify_eq.
Qed.

(** An age given as two numbers makes [save] raise [AssertionError], and
    the numbers stored before are still there; an age given as one number
    is stored as the only number of the answer. *)
Lemma save_single_number_survey :
  (@BaseDataForm.save hyphen_settings (models_reporting [])
     two_ages_bound survey_saved_once).1
  = Raise AssertionError
  ∧ answernumber_set <$> answers_for survey_saved_once visit_one age_field survey_form
    = [[AInt 30]]
  ∧ answernumber_set <$> answers_for survey_saved_twice visit_one age_field survey_form
    = [[AInt 31]].
Proof.
  destruct (@save_single_number hyphen_settings (models_reporting [])) as [Hraise Hstore].
  split; [|split; [reflexivity|]].
  - assert (length (answers_for two_ages_midway.2 visit_one age_field survey_form) ≤ 1)
      as Hrows by (vm_compute; lia).
    destruct (Hraise visit_one (returned two_ages_bound two_ages_midway)
                "survey--age" two_ages_midway.2
                (FieldName "age") age_field survey_form
                (PList [AInt 30; AInt 31]) 2
                eq_refl eq_refl eq_refl Hrows eq_refl eq_refl eq_refl eq_refl)
      as [_ Hsave]; [lia|].
    destruct (Hsave two_ages_bound survey_saved_once
                ["survey--colours"; "survey--sizes"] ["survey--name"]
                eq_refl eq_refl eq_refl)
      as (db' & Hsave' & _).
    by rewrite Hsave'.
  - destruct (Hstore second_answers second_answers_saved survey_saved_once
                survey_saved_twice "survey--age")
      as (sub & name & field & data_form & answer & v & Hsub & Hname & Hfield
          & Hform & Hrow & Hv & Hsingle).
    { by apply (bool_decide_unpack _). }
    { reflexivity. }
    { by apply (bool_decide_unpack _). }
    vm_compute in Hsub. injection Hsub as <-.
    vm_compute in Hname. injection Hname as <-.
    vm_compute in Hfield. injection Hfield as <-.
    vm_compute in Hform. injection Hform as <-.
    vm_compute in Hv. injection Hv as <-.
    destruct (Hsingle eq_refl eq_refl) as (number & _ & Hfirst & _ & Hset).
    cbn in Hfirst. injection Hfirst as <-.
    fold visit_one age_field survey_form in Hrow.
    rewrite Hrow. cbn [fmap list_fmap]. by rewrite Hset.
Defined.

(** * Further properties *)

(** ** Key mangling: round trip, injectivity, malformed keys *)

Section KeyManglingMore.
Context `{!Settings}.

Lemma contains_prefix_false sub a s :
  contains sub (String a s) = false ->
  String.prefix sub (String a s) = false ∧ contains sub s = false.
Proof. cbn [contains]. by intros [? ?]%orb_false_iff. Qed.

(** A string in which the separator does not occur is one piece, whatever
    the length of the separator. *)
Lemma split_from_absent sep s cur :
  contains sep s = false -> split_from sep 0 cur s = [cur +:+ s].
Proof.
  revert cur. induction s as [|a s IH]; intros cur Hs.
  - cbn [split_from]. by rewrite append_nil_r.
  - apply contains_prefix_false in Hs as [Hhead Hs].
    cbn [split_from]. rewrite Hhead, IH by done. by rewrite append_snoc.
Qed.

(** The pieces up to the first occurrence of a one-character separator. *)
Lemma split_from_first c s rest cur :
  contains (String c EmptyString) s = false ->
  split_from (String c EmptyString) 0 cur (s +:+ String c rest)
  = (cur +:+ s) :: split_from (String c EmptyString) 0 EmptyString rest.
Proof.
  revert cur. induction s as [|a s IH]; intros cur Hs.
  - rewrite append_nil_l. cbn [split_from].
    rewrite prefix_one_char, bool_decide_eq_true_2 by done.
    cbn [String.length Nat.sub]. by rewrite append_nil_r.
  - apply contains_one_char_cons in Hs as [Hne Hs].
    rewrite append_cons. cbn [split_from].
    rewrite prefix_one_char, bool_decide_eq_false_2 by done.
    by rewrite IH, append_snoc.
Qed.

Lemma append_one_char_inj c s1 f1 s2 f2 :
  contains (String c EmptyString) s1 = false ->
  contains (String c EmptyString) s2 = false ->
  s1 +:+ String c f1 = s2 +:+ String c f2 ->
  s1 = s2 ∧ f1 = f2.
Proof.
  revert s2. induction s1 as [|a s1 IH]; intros [|b s2] Hs1 Hs2.
  - rewrite !append_nil_l. by intros [= ->].
  - apply contains_one_char_cons in Hs2 as [Hne _].
    rewrite append_nil_l, append_cons. by intros [= -> _].
  - apply contains_one_char_cons in Hs1 as [Hne _].
    rewrite append_nil_l, append_cons. by intros [= <- _].
  - apply contains_one_char_cons in Hs1 as [_ Hs1].
    apply contains_one_char_cons in Hs2 as [_ Hs2].
    rewrite !append_cons. intros [= -> Hrest].
    by destruct (IH s2 Hs1 Hs2 Hrest) as [-> ->].
Qed.

End KeyManglingMore.

(** X1. With a one-character delimiter that occurs in neither slug, a
    mangled key is unpacked to its field slug, and in packed mode to the
    pair of the form slug and the field slug when the form slug does not
    contain [id_].  When the delimiter is none of the characters of [id_],
    a leading [id_] put in front of the key is stripped in packed mode and
    does not change the field slug that comes back. *)
Theorem field_for_db_round_trip `{!Settings} (delimiter : ascii) (f s : string) :
  FIELD_DELIMITER = String delimiter EmptyString ->
  contains FIELD_DELIMITER f = false ->
  contains FIELD_DELIMITER s = false ->
  contains "id_" s = false ->
  _field_for_db (_field_for_form f s) false = Ok (FieldName f)
  ∧ _field_for_db (_field_for_form f s) true = Ok (FormAndField s f)
  ∧ (contains FIELD_DELIMITER "id_" = false ->
     _field_for_db ("id_" +:+ _field_for_form f s) true = Ok (FormAndField s f)
     ∧ _field_for_db ("id_" +:+ _field_for_form f s) false = Ok (FieldName f)).
Proof.
  intros Hone Hf Hs Hid. rewrite Hone in Hf, Hs. rewrite Hone.
  unfold _field_for_db, _field_for_form, split. rewrite Hone.
  replace (String.eqb (String delimiter "") "") with false by done.
  rewrite !append_cons, !append_nil_l.
  rewrite split_from_joined by done. rewrite append_nil_l, Hid. cbn [drop_chars].
  split; [done|]. split; [done|].
  intros Hprefix.
  assert (contains (String delimiter "") ("id_" +:+ s) = false) as Hprefixed.
  { apply contains_one_char_cons in Hprefix as [Hi Hprefix].
    apply contains_one_char_cons in Hprefix as [Hd Hprefix].
    apply contains_one_char_cons in Hprefix as [Hu _].
    rewrite !append_cons, append_nil_l. cbn [contains].
    rewrite !prefix_one_char, !bool_decide_eq_false_2 by done. by rewrite Hs. }
  change (String "i" (String "d" (String "_" (s +:+ String delimiter f))))
    with (String "i" (String "d" (String "_" s)) +:+ String delimiter f).
  change (String "i" (String "d" (String "_" s))) with ("id_" +:+ s).
  rewrite split_from_joined by done. rewrite append_nil_l.
  split; [|done].
  replace (contains "id_" ("id_" +:+ s)) with true by (by destruct s).
  done.
Qed.

(** The round trip with the colon as delimiter. *)
Lemma field_for_db_round_trip_colon :
  @_field_for_db colon_settings (@_field_for_form colon_settings "age" "survey") false
  = Ok (FieldName "age")
  ∧ @_field_for_db colon_settings "id_survey:age" true = Ok (FormAndField "survey" "age").
Proof.
  destruct (@field_for_db_round_trip colon_settings ":"%char "age" "survey"
              eq_refl eq_refl eq_refl eq_refl) as (Hfield & _ & Hid).
  split; [exact Hfield|]. exact (proj1 (Hid eq_refl)).
Defined.

(** X2. Key mangling is injective on forms whose slugs are free of a
    one-character delimiter: two mangled keys are equal only if both the
    form slugs and the field slugs are. *)
Theorem field_for_form_injective `{!Settings} (delimiter : ascii)
    (f1 s1 f2 s2 : string) :
  FIELD_DELIMITER = String delimiter EmptyString ->
  contains FIELD_DELIMITER s1 = false ->
  contains FIELD_DELIMITER s2 = false ->
  _field_for_form f1 s1 = _field_for_form f2 s2 ->
  s1 = s2 ∧ f1 = f2.
Proof.
  unfold _field_for_form. intros -> Hs1 Hs2.
  rewrite !append_cons, !append_nil_l. by apply append_one_char_inj.
Qed.

(** Two fields of one form with the colon as delimiter never share a key. *)
Lemma field_for_form_injective_colon :
  @_field_for_form colon_settings "age" "survey"
  = @_field_for_form colon_settings "age" "survey"
  ∧ @_field_for_form colon_settings "age" "survey"
    ≠ @_field_for_form colon_settings "name" "survey".
Proof.
  split; [reflexivity|]. intros Hsame.
  by destruct (@field_for_form_injective colon_settings ":"%char
                 "age" "survey" "name" "survey" eq_refl eq_refl eq_refl Hsame)
    as [_ ?].
Defined.

(** X3. A name that does not contain the delimiter cannot be unpacked:
    [_field_for_db] raises [IndexError] in both modes; with an empty
    delimiter it raises [ValueError] for every name. *)
Theorem field_for_db_malformed `{!Settings} (name : string) (packed_return : bool) :
  (contains FIELD_DELIMITER name = false ->
   _field_for_db name packed_return = Raise IndexError)
  ∧ (FIELD_DELIMITER = EmptyString ->
     _field_for_db name packed_return = Raise ValueError).
Proof.
  unfold _field_for_db, split. split.
  - intros Habsent.
    assert (FIELD_DELIMITER ≠ "") as Hsep.
    { intros Hempty. rewrite Hempty in Habsent. by destruct name. }
    apply String.eqb_neq in Hsep. rewrite Hsep.
    rewrite split_from_absent by done. by destruct packed_return.
  - by intros ->.
Qed.

(** A key without the delimiter, and the settings with an empty one. *)
Lemma field_for_db_malformed_survey :
  @_field_for_db hyphen_settings "survey" false = Raise IndexError
  ∧ @_field_for_db hyphen_settings "id_survey" true = Raise IndexError.
Proof.
  split.
  - exact (proj1 (@field_for_db_malformed hyphen_settings "survey" false) eq_refl).
  - exact (proj1 (@field_for_db_malformed hyphen_settings "id_survey" true) eq_refl).
Defined.

(** X4. Only the piece between the first and the second delimiter is the
    field name: what follows a second delimiter in a key is dropped. *)
Theorem field_for_db_second_delimiter `{!Settings} (delimiter : ascii)
    (s f rest : string) :
  FIELD_DELIMITER = String delimiter EmptyString ->
  contains FIELD_DELIMITER s = false ->
  contains FIELD_DELIMITER f = false ->
  _field_for_db (_field_for_form (f +:+ FIELD_DELIMITER +:+ rest) s) false
  = Ok (FieldName f).
Proof.
  intros Hone Hs Hf. rewrite Hone in Hs, Hf.
  unfold _field_for_db, _field_for_form, split. rewrite Hone.
  replace (String.eqb (String delimiter "") "") with false by done.
  rewrite !append_cons, !append_nil_l.
  by rewrite !split_from_first.
Qed.

(** A field slug that contains the delimiter is cut at it. *)
Lemma field_for_db_second_delimiter_colon :
  @_field_for_db colon_settings (@_field_for_form colon_settings "pet:name" "survey") false
  = Ok (FieldName "pet").
Proof.
  exact (@field_for_db_second_delimiter colon_settings ":"%char
           "survey" "pet" "name" eq_refl eq_refl eq_refl).
Defined.

(** ** Collections: section pointers, the constructor, negative indices *)

Lemma list_getitem_nat {A} (l : list A) n x :
  l !! n = Some x -> list_getitem l (Z.of_nat n) = Ok x.
Proof.
  intros Hx. unfold list_getitem.
  destruct (Z.ltb_spec (Z.of_nat n) 0) as [?|_]; [lia|].
  destruct (Z.ltb_spec (Z.of_nat n) 0) as [?|_]; [lia|].
  by rewrite Nat2Z.id, Hx.
Qed.

Lemma list_index_first xs ys x :
  x ∉ xs -> list_index (xs ++ x :: ys) x = Ok (Z.of_nat (length xs)).
Proof.
  induction xs as [|y xs IH]; intros Hx.
  - cbn. by rewrite bool_decide_eq_true_2.
  - apply not_elem_of_cons in Hx as [Hne Hx].
    cbn [app list_index]. rewrite bool_decide_eq_false_2 by done.
    rewrite IH by done. cbn [length]. f_equal. lia.
Qed.

Lemma set_section_visible_slug (forms : list BaseDataForm.t) s :
  (∃ form, form ∈ forms ∧ BaseDataForm.section form = Some s) ->
  bool_decide
    (true ∈ (fun form => bool_decide (BaseDataForm.section form = Some s)) <$> forms)
  = true.
Proof.
  intros (form & Hin & Htag). apply bool_decide_eq_true.
  apply list_elem_of_fmap. exists form. by rewrite bool_decide_eq_true_2.
Qed.

(** The section pointers that [set_section] computes from the position
    of the current section. *)
Lemma set_section_pointers (self : BaseCollection.t) before sec after :
  BaseCollection.sections self = before ++ sec :: after ->
  let cur := Z.of_nat (length before) in
  let next :=
    if (cur + 1 <? Z.of_nat (length (BaseCollection.sections self)))%Z
    then Some (cur + 1)%Z else None in
  let prev := if (0 <=? cur - 1)%Z then Some (cur - 1)%Z else None in
  list_getitem (BaseCollection.sections self) cur = Ok sec
  ∧ BaseCollection.section_at self next = Ok (head after)
  ∧ BaseCollection.section_at self prev = Ok (last before).
Proof.
  intros Hsections. cbn zeta. rewrite Hsections. split.
  { apply list_getitem_nat. by rewrite list_lookup_middle. }
  unfold BaseCollection.section_at. rewrite Hsections. split.
  - rewrite length_app. cbn [length].
    destruct (_ <? _)%Z eqn:Hlt.
    + apply Z.ltb_lt in Hlt. destruct after as [|sec' after]; [cbn in Hlt; lia|].
      replace (Z.of_nat (length before) + 1)%Z with (Z.of_nat (S (length before))) by lia.
      rewrite (list_getitem_nat _ _ sec'); [done|].
      rewrite lookup_app_r by lia.
      by replace (S (length before) - length before) with 1 by lia.
    + apply Z.ltb_ge in Hlt. destruct after as [|sec' after]; [done|cbn in Hlt; lia].
  - destruct (_ <=? _)%Z eqn:Hle.
    + apply Z.leb_le in Hle.
      destruct before as [|b before _] using rev_ind; [cbn in Hle; lia|].
      rewrite length_app. cbn [length].
      replace (Z.of_nat (length before + 1) - 1)%Z with (Z.of_nat (length before)) by lia.
      rewrite (list_getitem_nat _ _ b).
      * by rewrite last_snoc.
      * rewrite <- app_assoc. cbn [app]. by apply list_lookup_middle.
    + apply Z.leb_gt in Hle. destruct before as [|b before]; [done|cbn in Hle; lia].
Qed.

(** X5. Selecting a section by its slug makes it the current section,
    with the section that follows it in the section list as the next one
    and the section before it as the previous one; the first section has
    no previous and the last no next section.  This holds when the slug is
    not empty, some form carries it, and the section is the first of the
    list with that slug. *)
Theorem set_section_navigation (self : BaseCollection.t)
    (before after : list Section_) (sec : Section_) :
  BaseCollection.sections self = before ++ sec :: after ->
  Section_slug sec ≠ "" ->
  Section_slug sec ∉ Section_slug <$> before ->
  (∃ form, form ∈ BaseCollection.forms self
           ∧ BaseDataForm.section form = Some (Section_slug sec)) ->
  let outcome := BaseCollection.set_section self (SectionSlug (Section_slug sec)) in
  outcome.1 = Ok tt
  ∧ BaseCollection.section outcome.2 = Some sec
  ∧ BaseCollection.next_section outcome.2 = head after
  ∧ BaseCollection.prev_section outcome.2 = last before
  ∧ BaseCollection._section outcome.2 = Z.of_nat (length before).
Proof.
  intros Hsections Hslug Hfirst Hform. cbn zeta.
  assert (∃ self1,
    BaseCollection._section self1 = Z.of_nat (length before)
    ∧ BaseCollection.set_section self (SectionSlug (Section_slug sec))
      = (Ok tt, BaseCollection.set_objects (Some sec) (head after) (last before) self1))
    as (self1 & Hindex & ->); [|done].
  eexists. split; cycle 1.
  - unfold BaseCollection.set_section.
    cbn [BaseCollection.__form_existence BaseCollection.set___form_existence
         BaseCollection.sections].
    rewrite set_section_visible_slug by done. cbn [negb].
    apply String.eqb_neq in Hslug. rewrite Hslug.
    rewrite Hsections at 1. rewrite fmap_app, fmap_cons, list_index_first by done.
    rewrite length_fmap.
    set (self1 := BaseCollection.set_indexes _ _ _ _).
    assert (BaseCollection.sections self1 = before ++ sec :: after) as Hsections1 by done.
    destruct (set_section_pointers self1 before sec after Hsections1)
      as (Hcur & Hnext & Hprev).
    cbn zeta in Hnext, Hprev.
    rewrite Hcur.
    change (BaseCollection.sections self) with (BaseCollection.sections self1).
    rewrite Hnext, Hprev. subst self1. reflexivity.
  - done.
Qed.

(** On forms tagged [s1; s1; s2] with the sections [s1; s2], selecting [s2]
    makes [s1] the previous section and leaves no next section. *)
Lemma set_section_navigation_s2 :
  let outcome := BaseCollection.set_section three_forms (SectionSlug "s2") in
  outcome.1 = Ok tt
  ∧ BaseCollection.section outcome.2 = Some section_two
  ∧ BaseCollection.next_section outcome.2 = None
  ∧ BaseCollection.prev_section outcome.2 = Some section_one.
Proof.
  destruct (set_section_navigation three_forms [section_one] [] section_two eq_refl)
    as (Hok & Hcur & Hnext & Hprev & _).
  - done.
  - by intros [=]%list_elem_of_singleton.
  - exists (blank_form "consent" "s2"). split; [|done].
    apply list_elem_of_lookup. by exists 2.
  - done.
Defined.





Lemma list_index_absent xs x : x ∉ xs -> list_index xs x = Raise ValueError.
Proof.
  induction xs as [|y xs IH]; intros Hx; [done|].
  apply not_elem_of_cons in Hx as [Hne Hx]. cbn [list_index].
  rewrite bool_decide_eq_false_2 by done. by rewrite IH.
Qed.

(** X7. Selecting a slug that is not empty and names no section of the
    collection always fails: with [ValueError] when some form carries the
    slug, with [SectionDoesNotExist] when none does.  The failed call has
    nevertheless switched the view to the forms that carry the slug, while
    the current, next and previous section are still those of the
    selection before. *)
Theorem set_section_failure (self : BaseCollection.t) (s : string) :
  s ≠ "" ->
  s ∉ Section_slug <$> BaseCollection.sections self ->
  let outcome := BaseCollection.set_section self (SectionSlug s) in
  let carried :=
    ∃ form, form ∈ BaseCollection.forms self ∧ BaseDataForm.section form = Some s in
  (carried -> outcome.1 = Raise ValueError)
  ∧ (¬ carried -> outcome.1 = Raise SectionDoesNotExist)
  ∧ visible_forms outcome.2
    = filter (fun form => BaseDataForm.section form = Some s) (BaseCollection.forms self)
  ∧ BaseCollection._section outcome.2 = BaseCollection._section self
  ∧ BaseCollection.section outcome.2 = BaseCollection.section self
  ∧ BaseCollection.next_section outcome.2 = BaseCollection.next_section self
  ∧ BaseCollection.prev_section outcome.2 = BaseCollection.prev_section self.
Proof.
  intros Hslug Habsent. cbn zeta.
  assert (visible_forms (BaseCollection.set_section self (SectionSlug s)).2
          = filter (fun form => BaseDataForm.section form = Some s)
              (BaseCollection.forms self)) as Hvisible.
  { rewrite (visible_forms_fmap (selected_by (SectionSlug s))).
    - rewrite set_section_forms. apply list_filter_iff. intros form.
      unfold selected_by, requested_slug. by rewrite bool_decide_eq_true.
    - by rewrite set_section_mask, set_section_forms. }
  split; [|split; [|split; [exact Hvisible|]]]; clear Hvisible.
  - intros Hcarried. unfold BaseCollection.set_section.
    cbn [BaseCollection.__form_existence BaseCollection.set___form_existence
         BaseCollection.sections].
    rewrite set_section_visible_slug by done. cbn [negb].
    apply String.eqb_neq in Hslug. rewrite Hslug.
    by rewrite list_index_absent.
  - intros Hnone. unfold BaseCollection.set_section.
    cbn [BaseCollection.__form_existence BaseCollection.set___form_existence].
    rewrite bool_decide_eq_false_2; [done|].
    intros (form & Htag & Hin)%list_elem_of_fmap. apply Hnone. exists form.
    split; [done|]. symmetry in Htag. by apply bool_decide_eq_true in Htag.
  - unfold BaseCollection.set_section.
    cbn [BaseCollection.__form_existence BaseCollection.set___form_existence
         BaseCollection.sections].
    apply String.eqb_neq in Hslug. rewrite Hslug.
    rewrite list_index_absent by done.
    by destruct (negb _).
Qed.

(** On forms tagged [s1; s1; s2] with the sections [s1; s2], showing the
    first section and then asking for [s3] leaves nothing visible and [s1]
    the current section. *)
Lemma set_section_failure_s3 :
  let outcome := BaseCollection.set_section three_forms_s1 (SectionSlug "s3") in
  outcome.1 = Raise SectionDoesNotExist
  ∧ visible_forms outcome.2 = []
  ∧ BaseCollection.section outcome.2 = Some section_one.
Proof.
  destruct (set_section_failure three_forms_s1 "s3") as (_ & Hnone & Hvisible & _ & Hcur & _).
  - done.
  - intros Hin. by vm_compute in Hin; repeat (apply elem_of_cons in Hin as [?|Hin]; [done|]);
      apply elem_of_nil in Hin.
  - cbn zeta. split; [|split].
    + apply Hnone. intros (form & Hin & Htag). vm_compute in Hin.
      repeat (apply elem_of_cons in Hin as [->|Hin]; [done|]).
      by apply elem_of_nil in Hin.
    + exact Hvisible.
    + exact Hcur.
Defined.

(** Once [fake_index] is above [arg] the loop of [__getitem__] runs off
    the mask. *)
Lemma getitem_loop_below (self : BaseCollection.t) (arg : Z) n k fake :
  length (BaseCollection.__form_existence self) = length (BaseCollection.forms self) ->
  k + n = length (BaseCollection.forms self) ->
  (arg < fake)%Z ->
  BaseCollection.getitem_loop self arg (seq k (S n)) fake = Raise IndexError.
Proof.
  intros Hlen. revert k fake. induction n as [|n IH]; intros k fake Hk Hlt.
  - cbn [seq BaseCollection.getitem_loop].
    by rewrite lookup_ge_None_2 by lia.
  - rewrite <- cons_seq. cbn [BaseCollection.getitem_loop].
    destruct (lookup_lt_is_Some_2 (BaseCollection.__form_existence self) k) as [b Hb];
      [lia|].
    rewrite Hb. destruct b.
    + destruct (Z.eqb_spec (fake + 1) arg) as [?|_]; [lia|]. apply IH; lia.
    + destruct (Z.eqb_spec fake arg) as [?|_]; [lia|]. apply IH; lia.
Qed.

(** X8. Negative indices do not count from the end of a collection.  An
    index below -1 is always out of range, and [collection[-1]] is the
    first form of the collection when that form is hidden by the section
    mask, and out of range when it is visible or there is no form. *)
Theorem getitem_negative (self : BaseCollection.t) (arg : Z) :
  length (BaseCollection.__form_existence self) = length (BaseCollection.forms self) ->
  ((arg < -1)%Z -> BaseCollection.__getitem__ self arg = Raise IndexError)
  ∧ BaseCollection.__getitem__ self (-1)
    = match BaseCollection.__form_existence self, BaseCollection.forms self with
      | false :: _, form :: _ => Ok (Some form)
      | _, _ => Raise IndexError
      end.
Proof.
  intros Hlen. unfold BaseCollection.__getitem__, BaseCollection.getitem_position.
  rewrite Nat.add_1_r. split.
  - intros Harg. by rewrite getitem_loop_below by (done || lia).
  - destruct (BaseCollection.forms self) as [|form forms] eqn:Hforms;
      destruct (BaseCollection.__form_existence self) as [|b mask] eqn:Hmask;
      try done.
    + cbn [seq BaseCollection.getitem_loop]. by rewrite Hmask.
    + cbn [length]. rewrite <- cons_seq. cbn [BaseCollection.getitem_loop].
      rewrite Hmask, Hforms. cbn [lookup list_lookup].
      destruct b; cbn [Z.add Z.eqb Pos.eqb Z.opp].
      * replace (-1 + 1 =? -1)%Z with false by done.
        rewrite getitem_loop_below;
          [done|by rewrite Hmask, Hforms|rewrite Hforms; cbn [length]; lia|lia].
      * by replace (-1 =? -1)%Z with true by done.
Qed.

(** With the [s2]-only mask on forms tagged [s1; s1; s2], [collection[-1]]
    is the hidden first form, not the last visible one. *)
Lemma getitem_negative_s2 :
  BaseCollection.__getitem__
    (BaseCollection.set_section three_forms (SectionSlug "s2")).2 (-1)
  = Ok (Some (blank_form "personal" "s1"))
  ∧ BaseCollection.__getitem__ three_forms_s1 (-1) = Raise IndexError
  ∧ BaseCollection.__getitem__ three_forms_s1 (-2) = Raise IndexError.
Proof.
  split; [|split].
  - exact (proj2 (getitem_negative
             (BaseCollection.set_section three_forms (SectionSlug "s2")).2 (-1) eq_refl)).
  - exact (proj2 (getitem_negative three_forms_s1 (-1) eq_refl)).
  - apply (proj1 (getitem_negative three_forms_s1 (-2) eq_refl)). lia.
Defined.

(** ** Collections: validation of every visible form *)

Lemma elem_of_true_positions (mask : list bool) offset p :
  p ∈ true_positions mask offset ↔ offset ≤ p ∧ mask !! (p - offset) = Some true.
Proof.
  revert offset. induction mask as [|b mask IH]; intros offset.
  { cbn. split; [by intros ?%elem_of_nil|by intros [_ ?]]. }
  assert (offset ≤ p ∧ (b :: mask) !! (p - offset) = Some true
          ↔ (p = offset ∧ b = true) ∨ (S offset ≤ p ∧ mask !! (p - S offset) = Some true))
    as ->.
  { destruct (decide (p = offset)) as [->|Hne].
    - rewrite Nat.sub_diag. cbn. split.
      + intros [_ [= ->]]. by left.
      + intros [[_ ->]|[? _]]; [done|lia].
    - destruct (decide (offset ≤ p)) as [Hle|Hgt].
      + replace (p - offset) with (S (p - S offset)) by lia. cbn. split.
        * intros [? ?]. right. split; [lia|done].
        * intros [[? _]|[? ?]]; [done|]. split; [lia|done].
      + split.
        * intros [? _]. lia.
        * intros [[? _]|[? _]]; [done|lia]. }
  destruct b; cbn [true_positions].
  - rewrite elem_of_cons, IH. split.
    + intros [->|?]; [by left|by right].
    + intros [[-> _]|?]; [by left|by right].
  - rewrite IH. split.
    + intros ?. by right.
    + intros [[_ [=]]|?]. done.
Qed.

Lemma NoDup_true_positions (mask : list bool) offset :
  NoDup (true_positions mask offset).
Proof.
  revert offset. induction mask as [|b mask IH]; intros offset; [constructor|].
  destruct b; cbn [true_positions]; [|apply IH].
  constructor; [|apply IH]. rewrite elem_of_true_positions. lia.
Qed.

Lemma elem_of_visible_forms (self : BaseCollection.t) form :
  form ∈ visible_forms self
  ↔ ∃ i, BaseCollection.__form_existence self !! i = Some true
         ∧ BaseCollection.forms self !! i = Some form.
Proof.
  unfold visible_forms. rewrite list_elem_of_fmap. split.
  - intros ([b form'] & -> & [Hb Hin]%list_elem_of_filter).
    apply list_elem_of_lookup in Hin as [i Hi].
    apply lookup_zip_with_Some in Hi as (b' & form'' & [= -> ->] & Hmask & Hform).
    cbn in Hb. subst b'. by exists i.
  - intros (i & Hmask & Hform). exists (true, form). split; [done|].
    apply list_elem_of_filter. split; [done|].
    apply list_elem_of_lookup. exists i.
    apply lookup_zip_with_Some. by exists true, form.
Qed.

(** Validating the forms at distinct positions of a collection, in turn. *)
Lemma validate_until_failure_spec `{!Settings} positions (self : BaseCollection.t) :
  NoDup positions ->
  (∀ p, p ∈ positions -> p < length (BaseCollection.forms self)) ->
  ∃ valid after,
    validate_until_failure positions self = (Ok valid, after)
    ∧ (valid = true
       ↔ ∀ p form, p ∈ positions -> BaseCollection.forms self !! p = Some form ->
           (BaseDataForm.is_valid form).1 = true)
    ∧ BaseCollection.__form_existence after = BaseCollection.__form_existence self
    ∧ length (BaseCollection.forms after) = length (BaseCollection.forms self)
    ∧ (∀ i, i ∉ positions ->
         BaseCollection.forms after !! i = BaseCollection.forms self !! i)
    ∧ (valid = true ->
       ∀ p form, p ∈ positions -> BaseCollection.forms self !! p = Some form ->
         BaseCollection.forms after !! p = Some (BaseDataForm.is_valid form).2).
Proof.
  revert self. induction positions as [|pos rest IH]; intros self Hdup Hbound.
  { exists true, self. split; [done|]. split.
    { split; [|done]. by intros _ p form ?%elem_of_nil. }
    repeat split; try done. by intros _ p form ?%elem_of_nil. }
  apply NoDup_cons in Hdup as [Hpos Hdup].
  destruct (lookup_lt_is_Some_2 (BaseCollection.forms self) pos) as [form Hform].
  { apply Hbound. left. }
  cbn [validate_until_failure]. rewrite Hform.
  destruct (BaseDataForm.is_valid form) as [valid form'] eqn:Hvalid.
  set (self' := BaseCollection.set_forms _ self).
  assert (∀ i, i ≠ pos ->
            BaseCollection.forms self' !! i = BaseCollection.forms self !! i) as Hother.
  { intros i Hi. cbn. by rewrite list_lookup_insert_ne. }
  assert (length (BaseCollection.forms self') = length (BaseCollection.forms self))
    as Hlength.
  { cbn. by rewrite length_insert. }
  destruct valid; cbn [negb].
  - destruct (IH self' Hdup) as (valid & after & -> & Hall & Hmask & Hlen & Hrest & Hdone).
    { intros p Hp. rewrite Hlength. apply Hbound. by right. }
    exists valid, after. split; [done|]. split.
    { rewrite Hall. split.
      - intros Hvalid_rest p form0 [->|Hp]%elem_of_cons Hform0.
        + rewrite Hform in Hform0. injection Hform0 as <-. by rewrite Hvalid.
        + apply (Hvalid_rest p); [done|]. rewrite Hother; [done|]. by intros ->.
      - intros Hvalid_all p form0 Hp Hform0.
        apply (Hvalid_all p); [by right|]. rewrite <- Hother; [done|]. by intros ->. }
    split; [done|]. split; [lia|]. split.
    { intros i [Hi Hnot]%not_elem_of_cons. by rewrite Hrest, Hother. }
    intros Hok p form0 [->|Hp]%elem_of_cons Hform0.
    + rewrite Hform in Hform0. injection Hform0 as <-.
      rewrite Hrest by done. cbn. rewrite list_lookup_insert_eq; [by rewrite Hvalid|].
      by eapply lookup_lt_Some.
    + apply Hdone; [done..|]. rewrite Hother; [done|]. by intros ->.
  - exists false, self'. split; [done|]. split.
    { split; [done|]. intros Hall.
      specialize (Hall pos form (list_elem_of_here _ _) Hform).
      by rewrite Hvalid in Hall. }
    split; [done|]. split; [done|]. split; [|done].
    intros i [Hi _]%not_elem_of_cons. by apply Hother.
Qed.

(** X9. Validation of a collection terminates and returns true exactly
    when every visible form is valid.  It never validates or changes a form
    that the section mask hides, it keeps the mask, and when it returns
    true every visible form has been replaced by its validated state. *)
Theorem collection_is_valid_all `{!Settings} (self : BaseCollection.t) :
  length (BaseCollection.__form_existence self) = length (BaseCollection.forms self) ->
  ∃ valid after,
    BaseCollection.is_valid self = Some (Ok valid, after)
    ∧ (valid = true
       ↔ ∀ form, form ∈ visible_forms self -> (BaseDataForm.is_valid form).1 = true)
    ∧ BaseCollection.__form_existence after = BaseCollection.__form_existence self
    ∧ (∀ i, BaseCollection.__form_existence self !! i = Some false ->
         BaseCollection.forms after !! i = BaseCollection.forms self !! i)
    ∧ (valid = true ->
       ∀ i form, BaseCollection.__form_existence self !! i = Some true ->
         BaseCollection.forms self !! i = Some form ->
         BaseCollection.forms after !! i = Some (BaseDataForm.is_valid form).2).
Proof.
  intros Hlen. rewrite is_valid_visits by done.
  destruct (validate_until_failure_spec
              (true_positions (BaseCollection.__form_existence self) 0) self)
    as (valid & after & -> & Hall & Hmask & _ & Hrest & Hdone).
  { apply NoDup_true_positions. }
  { intros p [_ Hp]%elem_of_true_positions. apply lookup_lt_Some in Hp. lia. }
  exists valid, after. split; [done|]. split.
  { rewrite Hall. split.
    - intros Hvalid form (i & Hi & Hform)%elem_of_visible_forms.
      apply (Hvalid i); [|done]. apply elem_of_true_positions.
      by rewrite Nat.sub_0_r; split; [lia|].
    - intros Hvalid p form [_ Hp]%elem_of_true_positions Hform.
      rewrite Nat.sub_0_r in Hp. apply Hvalid, elem_of_visible_forms. by exists p. }
  split; [done|]. split.
  - intros i Hi. apply Hrest. intros [_ Hp]%elem_of_true_positions.
    rewrite Nat.sub_0_r in Hp. congruence.
  - intros Hok i form Hi Hform. apply Hdone; [done| |done].
    apply elem_of_true_positions. by rewrite Nat.sub_0_r; split; [lia|].
Qed.

(** On forms tagged [s1; s1; s2] with the [s1]-only mask, validation
    leaves the hidden third form as it was. *)
Lemma collection_is_valid_all_s1 :
  ∃ valid after,
    @BaseCollection.is_valid hyphen_settings three_forms_s1 = Some (Ok valid, after)
    ∧ BaseCollection.forms after !! 2 = Some (blank_form "consent" "s2").
Proof.
  destruct (@collection_is_valid_all hyphen_settings three_forms_s1 eq_refl)
    as (valid & after & Hrun & _ & _ & Hhidden & _).
  exists valid, after. split; [exact Hrun|].
  exact (Hhidden 2 eq_refl).
Defined.

(** ** Forms: validation without the hidden bindings field *)

(** The message a control leaves for its datum, if it rejects it. *)
Lemma clean_fields_errors fs (d : gmap string pyval) errs cleaned :
  (BaseDataForm._clean_fields fs d errs cleaned).1
  = errs ++ omap (fun kv : string * Control =>
                    match control_clean kv.2 (d !! kv.1) with
                    | inl message => Some (kv.1, message)
                    | inr _ => None
                    end) fs.
Proof.
  revert errs cleaned. induction fs as [|[name control] fs IH]; intros errs cleaned.
  { cbn. by rewrite app_nil_r. }
  cbn [BaseDataForm._clean_fields omap list_omap fst snd].
  destruct (control_clean control (d !! name)) as [message|value].
  - rewrite IH. by rewrite <- app_assoc.
  - by rewrite IH.
Qed.

Lemma omap_nil_iff {A B} (f : A -> option B) (l : list A) :
  omap f l = [] ↔ ∀ x, x ∈ l -> f x = None.
Proof.
  induction l as [|a l IH]; cbn [omap list_omap].
  { split; [by intros _ x ?%elem_of_nil|done]. }
  destruct (f a) eqn:Hfa.
  - split; [done|]. intros Hall. specialize (Hall a (list_elem_of_here _ _)). congruence.
  - rewrite IH. split.
    + intros Hall x [->|Hx]%elem_of_cons; [done|by apply Hall].
    + intros Hall x Hx. apply Hall. by right.
Qed.

Lemma filter_other_keys (hidden : string) (fs : list (string * Control)) :
  hidden ∉ fs.*1 -> filter (fun kv => kv.1 ≠ hidden) fs = fs.
Proof.
  induction fs as [|[name control] fs IH]; [done|].
  cbn [fmap list_fmap fst]. intros [Hne Hrest]%not_elem_of_cons.
  rewrite filter_cons, decide_True by (cbn; congruence). f_equal. by apply IH.
Qed.

(** X10. [BaseDataForm.is_valid] drops the hidden bindings field and
    keeps every other field in order.  On a bound form that has not been
    validated before, it returns true exactly when the control of every
    other field accepts its datum, whatever the control of the hidden field
    would do; on a form that is not bound it returns false. *)
Theorem is_valid_skips_bindings_field `{!Settings} (self : BaseDataForm.t) :
  let hidden := _field_for_form HIDDEN_BINDINGS_SLUG (BaseDataForm.meta_slug self) in
  let outcome := BaseDataForm.is_valid self in
  BaseDataForm.fields outcome.2
  = filter (fun kv => kv.1 ≠ hidden) (BaseDataForm.fields self)
  ∧ (BaseDataForm.is_bound self = true ->
     BaseDataForm._errors self = None ->
     (outcome.1 = true
      ↔ ∀ name control, (name, control) ∈ BaseDataForm.fields self ->
          name ≠ hidden ->
          ∃ value, control_clean control (BaseDataForm.data self !! name) = inr value))
  ∧ (BaseDataForm.is_bound self = false -> outcome.1 = false).
Proof.
  cbn zeta. unfold BaseDataForm.is_valid.
  set (hidden := _field_for_form _ _).
  assert (BaseDataForm.fields (BaseDataForm._remove_bindings_field self)
          = filter (fun kv => kv.1 ≠ hidden) (BaseDataForm.fields self)) as Hfields.
  { unfold BaseDataForm._remove_bindings_field. fold hidden.
    case_bool_decide as Hin; [done|]. by rewrite filter_other_keys. }
  assert (BaseDataForm.is_bound (BaseDataForm._remove_bindings_field self)
          = BaseDataForm.is_bound self) as Hbound.
  { unfold BaseDataForm._remove_bindings_field. by case_bool_decide. }
  assert (BaseDataForm._errors (BaseDataForm._remove_bindings_field self)
          = BaseDataForm._errors self) as Herrors.
  { unfold BaseDataForm._remove_bindings_field. by case_bool_decide. }
  assert (BaseDataForm.data (BaseDataForm._remove_bindings_field self)
          = BaseDataForm.data self) as Hdata.
  { unfold BaseDataForm._remove_bindings_field. by case_bool_decide. }
  set (self' := BaseDataForm._remove_bindings_field self) in *.
  unfold BaseDataForm.BaseForm_is_valid, BaseDataForm.errors, BaseDataForm.full_clean.
  rewrite Hbound, Herrors, Hfields, Hdata.
  split; [|split].
  - destruct (BaseDataForm.is_bound self); [|done].
    destruct (BaseDataForm._errors self); [done|].
    by destruct (BaseDataForm._clean_fields _ _ _ _).
  - intros -> ->.
    pose proof (clean_fields_errors
                  (filter (fun kv => kv.1 ≠ hidden) (BaseDataForm.fields self))
                  (BaseDataForm.data self) [] ∅) as Herrs.
    destruct (BaseDataForm._clean_fields _ _ _ _) as [errs cleaned].
    cbn [fst snd BaseDataForm._errors BaseDataForm.set_validation default].
    cbn [fst app] in Herrs.
    assert ((match errs with [] => true | _ :: _ => false end) = true ↔ errs = [])
      as -> by (by destruct errs).
    rewrite Herrs, omap_nil_iff. split.
    + intros Hall name control Hin Hne.
      specialize (Hall (name, control)). cbn [fst snd] in Hall.
      destruct (control_clean control _) as [message|value]; [|by exists value].
      discriminate Hall. apply list_elem_of_filter. by split.
    + intros Hall [name control] [Hne Hin]%list_elem_of_filter. cbn [fst snd] in *.
      by destruct (Hall name control Hin Hne) as [value ->].
  - by intros ->.
Qed.

(** A form whose only rejected datum is that of the hidden bindings field
    is valid, and is left with its one other field. *)
Lemma is_valid_skips_bindings_field_named :
  (@BaseDataForm.is_valid hyphen_settings named_form).1 = true
  ∧ (BaseDataForm.fields (@BaseDataForm.is_valid hyphen_settings named_form).2).*1
    = ["survey--name"].
Proof.
  destruct (@is_valid_skips_bindings_field hyphen_settings named_form)
    as (Hfields & Hvalid & _).
  split.
  - apply (Hvalid eq_refl eq_refl). intros name control Hin Hne.
    apply elem_of_cons in Hin as [[= -> ->]|Hin]; [by eexists|].
    apply elem_of_cons in Hin as [[= -> ->]|Hin]; [done|].
    by apply elem_of_nil in Hin.
  - by rewrite Hfields.
Defined.

(** ** Building a collection: the section list *)

Section UniqueSections.
Context {A : Type} `{!EqDecision A}.

Lemma unique_sections_loop_spec (l acc : list A) :
  NoDup acc ->
  NoDup (unique_sections_loop l acc)
  ∧ (∀ x, x ∈ unique_sections_loop l acc ↔ x ∈ acc ∨ x ∈ l)
  ∧ acc `prefix_of` unique_sections_loop l acc.
Proof.
  revert acc. induction l as [|a l IH]; intros acc Hdup; cbn [unique_sections_loop].
  { split; [done|]. split; [|done]. intros x. rewrite elem_of_nil. tauto. }
  case_bool_decide as Hin.
  - destruct (IH acc Hdup) as (Hnodup & Hmem & Hprefix).
    split; [done|]. split; [|done].
    intros x. rewrite Hmem, elem_of_cons. split; [tauto|].
    intros [?|[->|?]]; tauto.
  - destruct (IH (acc ++ [a])) as (Hnodup & Hmem & Hprefix).
    { apply NoDup_app. split; [done|]. split; [|apply NoDup_singleton].
      intros x Hx ->%list_elem_of_singleton. done. }
    split; [done|]. split.
    + intros x. rewrite Hmem, elem_of_app, list_elem_of_singleton, elem_of_cons. tauto.
    + etrans; [|exact Hprefix]. by apply prefix_app_r.
Qed.

Lemma unique_sections_loop_app (l1 l2 acc : list A) :
  unique_sections_loop (l1 ++ l2) acc
  = unique_sections_loop l2 (unique_sections_loop l1 acc).
Proof.
  revert acc. induction l1 as [|a l1 IH]; intros acc; [done|].
  cbn [app unique_sections_loop]. by case_bool_decide.
Qed.

End UniqueSections.

(** X11. The section list that [create_collection] hands to the collection
    has no duplicates and the same members as the list it was made from,
    and it keeps the order of first occurrence: a section is placed right
    after the unique list of the sections that come before its first
    occurrence. *)
Theorem unique_sections_first_occurrences {A} `{!EqDecision A} (l : list A) :
  NoDup (unique_sections l)
  ∧ (∀ x, x ∈ unique_sections l ↔ x ∈ l)
  ∧ (∀ before x after, l = before ++ x :: after -> x ∉ before ->
       ∃ rest, unique_sections l = unique_sections before ++ x :: rest).
Proof.
  unfold unique_sections.
  destruct (unique_sections_loop_spec l [] (NoDup_nil_2)) as (Hdup & Hmem & _).
  split; [done|]. split.
  { intros x. rewrite Hmem, elem_of_nil. tauto. }
  intros before x after -> Hfirst.
  rewrite unique_sections_loop_app. cbn [unique_sections_loop].
  destruct (unique_sections_loop_spec before [] (NoDup_nil_2)) as (Hdup' & Hmem' & _).
  rewrite bool_decide_eq_false_2.
  2:{ rewrite Hmem', elem_of_nil. tauto. }
  destruct (unique_sections_loop_spec after (unique_sections_loop before [] ++ [x]))
    as (_ & _ & [rest ->]).
  { apply NoDup_app. split; [done|]. split; [|apply NoDup_singleton].
    intros y Hy ->%list_elem_of_singleton. apply Hmem' in Hy.
    rewrite elem_of_nil in Hy. tauto. }
  exists rest. by rewrite <- app_assoc.
Qed.

(** The sections [s1; s2; s1] become [s1; s2] . *)
Lemma unique_sections_first_occurrences_s1_s2 :
  ∃ rest,
    unique_sections [section_one; section_two; section_one]
    = [section_one; section_two] ++ rest
    ∧ NoDup (unique_sections [section_one; section_two; section_one]).
Proof.
  destruct (unique_sections_first_occurrences [section_one; section_two; section_one])
    as (Hdup & _ & Horder).
  destruct (Horder [section_one] section_two [section_one] eq_refl) as [rest Hrest].
  - by intros [=]%list_elem_of_singleton.
  - exists rest. split; [exact Hrest|exact Hdup].
Defined.
